(** * Expense tracker (app2.py): transaction store, period filter, aggregation

    A shallow embedding of the core of [app2.py]:
    [add_transaction], [get_recent_transactions],
    [filter_transactions_by_period], [create_summary_cards] and the four
    chart builders.

    Conventions of the embedding
    - the global list [transactions] is threaded explicitly: a function that
      appends to it returns the new store;
    - [datetime.now()] is an input: [add_transaction] takes the clock reading
      whose [isoformat()] it stamps, the filter takes [today];
    - exceptions are values of [exn], functions that can raise live in the
      error monad [M], and [try ... except Exception] is [try_except];
    - amounts are exact rationals ([Q]), which have neither rounding nor
      NaN; the two sums the program takes in binary floating point are
      modelled apart, in the module [Binary64];
    - a string is the sequence of the bytes of a text in UTF-8;
    - [pd.to_datetime] is a parameter of the functions that call it, and
      [sort_values], [groupby] and [strptime] are modelled after the
      libraries they come from. *)

From Stdlib Require Import ZArith QArith List String Ascii Bool Lia.
From Stdlib Require Import Permutation Sorted OrderedTypeEx.
From Stdlib Require Import PrimFloat.
Import ListNotations.

Local Open Scope Z_scope.

(** ** The proleptic Gregorian calendar of [datetime.date] *)

Module Calendar.

Record date : Type := mkDate { year : Z; month : Z; day : Z }.

Definition MINYEAR : Z := 1.
Definition MAXYEAR : Z := 9999.

(** [_is_leap]: year % 4 == 0 and (year % 100 != 0 or year % 400 == 0) *)
Definition is_leap (y : Z) : bool :=
  (y mod 4 =? 0) && (negb (y mod 100 =? 0) || (y mod 400 =? 0)).

(** [_DAYS_IN_MONTH], the entry of February being that of a common year *)
Definition DAYS_IN_MONTH (m : Z) : Z :=
  match m with
  | 1 => 31 | 2 => 28 | 3 => 31 | 4 => 30 | 5 => 31 | 6 => 30
  | 7 => 31 | 8 => 31 | 9 => 30 | 10 => 31 | 11 => 30 | 12 => 31
  | _ => -1
  end.

(** [_DAYS_BEFORE_MONTH] *)
Definition DAYS_BEFORE_MONTH (m : Z) : Z :=
  match m with
  | 1 => 0 | 2 => 31 | 3 => 59 | 4 => 90 | 5 => 120 | 6 => 151
  | 7 => 181 | 8 => 212 | 9 => 243 | 10 => 273 | 11 => 304 | 12 => 334
  | _ => -1
  end.

Definition b2z (b : bool) : Z := if b then 1 else 0.

(** [_days_in_month] *)
Definition days_in_month (y m : Z) : Z :=
  if (m =? 2) && is_leap y then 29 else DAYS_IN_MONTH m.

(** [_days_before_year]: number of days before January 1st of year [y] *)
Definition days_before_year (y : Z) : Z :=
  let y' := y - 1 in y' * 365 + y' / 4 - y' / 100 + y' / 400.

(** [_days_before_month] *)
Definition days_before_month (y m : Z) : Z :=
  DAYS_BEFORE_MONTH m + b2z ((2 <? m) && is_leap y).

(** [_ymd2ord] *)
Definition ymd2ord (y m d : Z) : Z :=
  days_before_year y + days_before_month y m + d.

Definition toordinal (d : date) : Z := ymd2ord (year d) (month d) (day d).

Definition DI400Y : Z := 146097.
Definition DI100Y : Z := 36524.
Definition DI4Y : Z := 1461.
Definition MAXORDINAL : Z := 3652059.

(** The tail of [_ord2ymd]: month and day from the 0-based day of the year *)
Definition month_day (leapyear : bool) (n : Z) : Z * Z :=
  let month := Z.shiftr (n + 50) 5 in
  let preceding := DAYS_BEFORE_MONTH month + b2z ((2 <? month) && leapyear) in
  if n <? preceding then
    let month' := month - 1 in
    let preceding' :=
      preceding - (DAYS_IN_MONTH month' + b2z ((month' =? 2) && leapyear)) in
    (month', n - preceding' + 1)
  else (month, n - preceding + 1).

(** [_ord2ymd] *)
Definition ord2ymd (n : Z) : date :=
  let n := n - 1 in
  let n400 := n / DI400Y in
  let n := n mod DI400Y in
  let n100 := n / DI100Y in
  let n := n mod DI100Y in
  let n4 := n / DI4Y in
  let n := n mod DI4Y in
  let n1 := n / 365 in
  let n := n mod 365 in
  let y := n400 * 400 + 1 + n100 * 100 + n4 * 4 + n1 in
  if (n1 =? 4) || (n100 =? 4) then mkDate (y - 1) 12 31
  else
    let leapyear := (n1 =? 3) && (negb (n4 =? 24) || (n100 =? 3)) in
    let '(m, d) := month_day leapyear n in
    mkDate y m d.

(** [date.weekday()]: Monday is 0, Sunday is 6 *)
Definition weekday (d : date) : Z := (toordinal d + 6) mod 7.

(** [date - timedelta(days=k)]; [None] stands for [OverflowError] *)
Definition sub_days (d : date) (k : Z) : option date :=
  let o := toordinal d - k in
  if (0 <? o) && (o <=? MAXORDINAL) then Some (ord2ymd o) else None.

(** The dates a [datetime.date] object can hold *)
Definition valid_date (d : date) : Prop :=
  MINYEAR <= year d <= MAXYEAR /\
  1 <= month d <= 12 /\
  1 <= day d <= days_in_month (year d) (month d).

Definition valid_dateb (d : date) : bool :=
  (MINYEAR <=? year d) && (year d <=? MAXYEAR) &&
  (1 <=? month d) && (month d <=? 12) &&
  (1 <=? day d) && (day d <=? days_in_month (year d) (month d)).

(** Comparison of dates: lexicographic on (year, month, day) *)
Definition date_compare (a b : date) : comparison :=
  match year a ?= year b with
  | Eq => match month a ?= month b with
          | Eq => day a ?= day b
          | c => c
          end
  | c => c
  end.

Definition date_eqb (a b : date) : bool :=
  match date_compare a b with Eq => true | _ => false end.

Definition date_leb (a b : date) : bool :=
  match date_compare a b with Gt => false | _ => true end.

(** [d.replace(day=1)] and [d.replace(month=1, day=1)] *)
Definition replace_day1 (d : date) : date := mkDate (year d) (month d) 1.
Definition replace_month1_day1 (d : date) : date := mkDate (year d) 1 1.

End Calendar.

(** ** Exceptions and the error monad *)

Inductive exn : Type :=
| ValueError
| KeyError (key : string)
| OverflowError.

Definition M (A : Type) : Type := (exn + A)%type.

Definition ret {A : Type} (a : A) : M A := inr a.
Definition raise {A : Type} (e : exn) : M A := inl e.

Definition bind {A B : Type} (c : M A) (k : A -> M B) : M B :=
  match c with
  | inl e => inl e
  | inr a => k a
  end.

Notation "x <- c ;; k" := (bind c (fun x => k))
  (at level 61, c at next level, right associativity).

(** [try: body  except Exception as e: handler e] *)
Definition try_except {A : Type} (body : M A) (handler : exn -> A) : A :=
  match body with
  | inl e => handler e
  | inr a => a
  end.

(** An optional result turned into a raising computation *)
Definition of_option {A : Type} (e : exn) (o : option A) : M A :=
  match o with
  | Some a => ret a
  | None => raise e
  end.

Fixpoint mapM {A B : Type} (f : A -> M B) (l : list A) : M (list B) :=
  match l with
  | [] => ret []
  | a :: l' => b <- f a ;; bs <- mapM f l' ;; ret (b :: bs)
  end.

(** ** [datetime.strptime(date, "%Y-%m-%d")]

    The format compiles to the regular expression
    [(?P<Y>\d\d\d\d)-(?P<m>1[0-2]|0[1-9]|[1-9])-(?P<d>3[0-1]|[1-2]\d|0[1-9]|[1-9]| [1-9])],
    matched at the start of the string; text left after the match and
    fields that are not a date both raise [ValueError].  A text is the
    sequence of the bytes of its UTF-8 encoding; [\d] matches every
    decimal digit of Unicode (category Nd, here those of Unicode 14), the
    classes in brackets match ASCII characters only, and [int] reads a
    digit of any script by its value. *)

Module Strptime.

Import Calendar.

Definition byte (c : ascii) : Z := Z.of_nat (nat_of_ascii c).

(** A byte [10xxxxxx] that continues a UTF-8 sequence, with its six bits *)
Definition continuation (s : string) : option (Z * string) :=
  match s with
  | String c rest =>
      let n := byte c in
      if (128 <=? n) && (n <? 192) then Some (n - 128, rest) else None
  | EmptyString => None
  end.

(** The code point at the head of a text and the text after it; [None]
    at the end of the text and on bytes that are not UTF-8 *)
Definition code_point (s : string) : option (Z * string) :=
  match s with
  | EmptyString => None
  | String c rest =>
      let n := byte c in
      if n <? 128 then Some (n, rest)
      else if (194 <=? n) && (n <? 224) then
        match continuation rest with
        | Some (b1, r1) => Some ((n - 192) * 64 + b1, r1)
        | None => None
        end
      else if (224 <=? n) && (n <? 240) then
        match continuation rest with
        | Some (b1, r1) =>
            match continuation r1 with
            | Some (b2, r2) =>
                let cp := ((n - 224) * 64 + b1) * 64 + b2 in
                if (2048 <=? cp) && negb ((55296 <=? cp) && (cp <=? 57343))
                then Some (cp, r2) else None
            | None => None
            end
        | None => None
        end
      else if (240 <=? n) && (n <? 245) then
        match continuation rest with
        | Some (b1, r1) =>
            match continuation r1 with
            | Some (b2, r2) =>
                match continuation r2 with
                | Some (b3, r3) =>
                    let cp := (((n - 240) * 64 + b1) * 64 + b2) * 64 + b3 in
                    if (65536 <=? cp) && (cp <=? 1114111)
                    then Some (cp, r3) else None
                | None => None
                end
            | None => None
            end
        | None => None
        end
      else None
  end.

(** The code points of the digit zero of each script: the decimal digits
    of Unicode come in runs of ten, from the zero of the script to its
    nine.  The table is that of Unicode 14.0, which CPython 3.11 carries;
    a later release adds the digits of the scripts encoded since. *)
Definition DECIMAL_ZEROS : list Z :=
  [48; 1632; 1776; 1984; 2406; 2534; 2662; 2790; 2918; 3046; 3174; 3302;
   3430; 3558; 3664; 3792; 3872; 4160; 4240; 6112; 6160; 6470; 6608; 6784;
   6800; 6992; 7088; 7232; 7248; 42528; 43216; 43264; 43472; 43504; 43600;
   44016; 65296; 66720; 68912; 69734; 69872; 69942; 70096; 70384; 70736;
   70864; 71248; 71360; 71472; 71904; 72016; 72784; 73040; 73120; 92768;
   92864; 93008; 120782; 120792; 120802; 120812; 120822; 123200; 123632;
   125264; 130032].

Definition decimal_value (cp : Z) : option Z :=
  match find (fun zero => (zero <=? cp) && (cp <=? zero + 9)) DECIMAL_ZEROS with
  | Some zero => Some (cp - zero)
  | None => None
  end.

(** [\d]: one decimal digit at the head of the text, with its value *)
Definition decimal (s : string) : option (Z * string) :=
  match code_point s with
  | Some (cp, rest) =>
      match decimal_value cp with
      | Some v => Some (v, rest)
      | None => None
      end
  | None => None
  end.

(** The digits of a class in brackets, [[0-9]] and its parts: ASCII *)
Definition digit (c : ascii) : option Z :=
  let n := Z.of_nat (nat_of_ascii c) in
  if (48 <=? n) && (n <=? 57) then Some (n - 48) else None.

Definition in_range (lo hi : Z) (c : ascii) : option Z :=
  match digit c with
  | Some v => if (lo <=? v) && (v <=? hi) then Some v else None
  | None => None
  end.

(** One alternative made of two character classes *)
Definition two (c1 c2 : ascii -> option Z) (s : string) : list (Z * string) :=
  match s with
  | String a (String b rest) =>
      match c1 a, c2 b with
      | Some x, Some y => [(10 * x + y, rest)]
      | _, _ => []
      end
  | _ => []
  end.

Definition one (c1 : ascii -> option Z) (s : string) : list (Z * string) :=
  match s with
  | String a rest =>
      match c1 a with
      | Some x => [(x, rest)]
      | None => []
      end
  | _ => []
  end.

(** One alternative made of a character class and [\d] *)
Definition class_decimal (c1 : ascii -> option Z) (s : string)
  : list (Z * string) :=
  match s with
  | String a rest =>
      match c1 a, decimal rest with
      | Some x, Some (y, rest') => [(10 * x + y, rest')]
      | _, _ => []
      end
  | _ => []
  end.

Definition space (c : ascii) : option Z :=
  if Ascii.eqb c " "%char then Some 0 else None.

(** [%m]: the alternatives that match at the head of [s], in order *)
Definition month_alts (s : string) : list (Z * string) :=
  two (in_range 1 1) (in_range 0 2) s
  ++ two (in_range 0 0) (in_range 1 9) s
  ++ one (in_range 1 9) s.

(** [%d] *)
Definition day_alts (s : string) : list (Z * string) :=
  two (in_range 3 3) (in_range 0 1) s
  ++ class_decimal (in_range 1 2) s
  ++ two (in_range 0 0) (in_range 1 9) s
  ++ one (in_range 1 9) s
  ++ two space (in_range 1 9) s.

(** [%Y] *)
Definition year_alts (s : string) : list (Z * string) :=
  match decimal s with
  | Some (x, s1) =>
      match decimal s1 with
      | Some (y, s2) =>
          match decimal s2 with
          | Some (z, s3) =>
              match decimal s3 with
              | Some (w, rest) => [(1000 * x + 100 * y + 10 * z + w, rest)]
              | None => []
              end
          | None => []
          end
      | None => []
      end
  | None => []
  end.

Definition dash (s : string) : list string :=
  match s with
  | String c rest => if Ascii.eqb c "-"%char then [rest] else []
  | _ => []
  end.

(** The matches of the whole pattern at the start of [s], in the order a
    backtracking matcher tries them, each with the text left over *)
Definition matches (s : string) : list (Z * Z * Z * string) :=
  flat_map (fun '(y, s1) =>
    flat_map (fun s2 =>
      flat_map (fun '(m, s3) =>
        flat_map (fun s4 =>
          map (fun '(d, s5) => (y, m, d, s5)) (day_alts s4))
        (dash s3))
      (month_alts s2))
    (dash s1))
  (year_alts s).

Definition strptime (s : string) : M date :=
  match matches s with
  | [] => raise ValueError                (* does not match format *)
  | (y, m, d, rest) :: _ =>
      match rest with
      | EmptyString =>
          let r := mkDate y m d in
          if valid_dateb r then ret r
          else raise ValueError           (* day/year out of range *)
      | _ => raise ValueError             (* unconverted data remains *)
      end
  end.

End Strptime.

(** ** [date.strftime("%Y-%m-%d")]

    The text the form proposes for the date of a new transaction and the
    text of the [Date] column; years of four digits. *)

Module Strftime.

Import Calendar.

Definition digit_char (d : Z) : ascii := ascii_of_nat (Z.to_nat (48 + d)).

Definition two_digits (n : Z) (rest : string) : string :=
  String (digit_char (n / 10)) (String (digit_char (n mod 10)) rest).

Definition four_digits (n : Z) (rest : string) : string :=
  String (digit_char (n / 1000))
    (String (digit_char ((n / 100) mod 10))
       (String (digit_char ((n / 10) mod 10))
          (String (digit_char (n mod 10)) rest))).

Definition strftime (d : date) : string :=
  four_digits (year d)
    (String "-" (two_digits (month d)
                   (String "-" (two_digits (day d) EmptyString)))).

End Strftime.

(** ** The transaction store *)



(** The dictionaries appended to [transactions] *)
Record transaction : Type := mkTransaction {
  id : nat;
  type : string;
  category : string;
  amount : Q;
  description : string;
  date : string;
  timestamp : string
}.

Definition store : Type := list transaction.

(** The status line [add_transaction] returns, one constructor per
    [return]:
    - [InvalidAmount]: "Please enter a valid amount";
    - [MissingCategory]: "Please select a category";
    - [InvalidDate]: "Please enter date in YYYY-MM-DD format";
    - [Added ty a]: "<ty> of $<a> added successfully!";
    - [Error e]: "Error: <e>", the handler of the outer [try]. *)
Inductive status : Type :=
| InvalidAmount
| MissingCategory
| InvalidDate
| Added (transaction_type : string) (amount : Q)
| Error (e : exn).

(** Python truth values of the optional inputs: [None], [0] and the empty
    string are false *)
Definition truthy_number (a : option Q) : bool :=
  match a with
  | None => false
  | Some q => negb (Qeq_bool q 0)
  end.

Definition truthy_string (s : option string) : bool :=
  match s with
  | None | Some EmptyString => false
  | Some _ => true
  end.

(** [description or "No description"] *)
Definition or_default (s d : string) : string :=
  match s with
  | EmptyString => d
  | _ => s
  end.

(** A row of the table shown under "Recent Transactions" *)
Record display_row : Type := mkDisplay {
  col_Date : Calendar.date;
  col_Type : string;
  col_Category : string;
  col_Amount : Q;
  col_Description : string
}.

(** *** [DataFrame.sort_values(by, ascending)] and [head]

    pandas sorts one key column with [nargsort]: for a descending sort it
    reverses the column, sorts it ascending and reverses the result; the
    ascending sort of a column of at most 16 strings is an insertion
    sort, which keeps equal keys in the order it met them.  On a longer
    column the default sort of pandas may order equal keys otherwise; the
    order of distinct keys is the same. *)

Fixpoint insert_sorted {A : Type} (leb : A -> A -> bool) (x : A) (l : list A)
  : list A :=
  match l with
  | [] => [x]
  | y :: l' => if leb x y then x :: l else y :: insert_sorted leb x l'
  end.

Fixpoint argsort {A : Type} (leb : A -> A -> bool) (l : list A) : list A :=
  match l with
  | [] => []
  | x :: l' => insert_sorted leb x (argsort leb l')
  end.

Definition sort_values {A : Type} (by_ : A -> string) (ascending : bool)
  (df : list A) : list A :=
  let leb a b := String.leb (by_ a) (by_ b) in
  if ascending then argsort leb df else rev (argsort leb (rev df)).

Definition head {A : Type} (n : nat) (df : list A) : list A := firstn n df.

(** ** Data frames of the dashboard *)

(** A row of [pd.DataFrame(transactions)] once its [date] column has been
    replaced by [pd.to_datetime(df['date'])] *)
Record row : Type := mkRow {
  tx : transaction;
  date_col : Calendar.date
}.

(** [pd.DataFrame()] has no columns at all; a frame built from the store
    has the columns of the dictionaries, also when a filter leaves it
    without rows. *)
Inductive dataframe : Type :=
| NoColumns
| Frame (rows : list row).

Definition rows_of (df : dataframe) : list row :=
  match df with
  | NoColumns => []
  | Frame rows => rows
  end.

(** [df.empty] *)
Definition empty (df : dataframe) : bool :=
  match rows_of df with
  | [] => true
  | _ => false
  end.

(** [len(df)] *)
Definition len (df : dataframe) : nat := List.length (rows_of df).

(** [df[df['type'] == ty]]: selecting a column that does not exist raises
    [KeyError] *)
Definition select_type (df : dataframe) (ty : string) : M dataframe :=
  match df with
  | NoColumns => raise (KeyError "type")
  | Frame rows => ret (Frame (filter (fun r => String.eqb (type (tx r)) ty) rows))
  end.

Definition Qsum (l : list Q) : Q := fold_right Qplus 0%Q l.

(** [df['amount'].sum()] *)
Definition sum_amount (df : dataframe) : M Q :=
  match df with
  | NoColumns => raise (KeyError "amount")
  | Frame rows => ret (Qsum (map (fun r => amount (tx r)) rows))
  end.

(** *** [df.groupby(keys)['amount'].sum().reset_index()]

    One line per distinct key, the keys in increasing order, each with the
    sum of the amounts of its rows. *)

Fixpoint group_add {K : Type} (cmp : K -> K -> comparison) (k : K) (v : Q)
  (acc : list (K * Q)) : list (K * Q) :=
  match acc with
  | [] => [(k, v)]
  | (k', v') :: rest =>
      match cmp k k' with
      | Eq => (k', (v' + v)%Q) :: rest
      | Lt => (k, v) :: acc
      | Gt => (k', v') :: group_add cmp k v rest
      end
  end.

Definition groupby_sum {K : Type} (by_ : string)
  (cmp : K -> K -> comparison) (key : row -> K) (df : dataframe)
  : M (list (K * Q)) :=
  match df with
  | NoColumns => raise (KeyError by_)
  | Frame rows =>
      ret (fold_left (fun acc r => group_add cmp (key r) (amount (tx r)) acc)
             rows [])
  end.

Definition pair_compare {A B : Type} (ca : A -> A -> comparison)
  (cb : B -> B -> comparison) (x y : A * B) : comparison :=
  match ca (fst x) (fst y) with
  | Eq => cb (snd x) (snd y)
  | c => c
  end.

(** The summary of [create_summary_cards] before it is formatted *)
Record summary : Type := mkSummary {
  total_income : Q;
  total_expenses : Q;
  net_balance : Q;
  total_transactions : nat
}.

Inductive summary_card : Type :=
| NoDataAvailable          (* "No data available for the selected period" *)
| SummaryCard (period : string) (s : summary).

(** What the chart builders hand to plotly: an empty figure carrying one
    annotation, or the table a chart is drawn from *)
Inductive figure : Type :=
| Placeholder (text title : string)
| Pie (title : string) (category_totals : list (string * Q))
| Trend (title : string) (traces : list (string * list (Calendar.date * Q)))
| Bar (title : string) (category_totals : list (string * string * Q)).

Definition titled (title period : string) : string :=
  (title ++ " (" ++ period ++ ")")%string.

Definition value (o : option string) : string :=
  match o with
  | Some s => s
  | None => EmptyString
  end.

(** ** The functions of [app2.py] *)

Section App.

(** [pd.to_datetime(s)] read as a calendar date ([.dt.date], [.date()]);
    the parser belongs to pandas and is a parameter of the development.
    It raises on text it cannot read as a date. *)
Variable to_datetime : string -> M Calendar.date.

(** [df = pd.DataFrame(transactions)] with its dates parsed, a column at a
    time *)
Definition parse_dates (transactions : store) : M (list row) :=
  mapM (fun t => d <- to_datetime (date t) ;; ret (mkRow t d)) transactions.

(** Lines 65 to 67 of [get_recent_transactions] *)
Definition recent_df (transactions : store) : M (list row) :=
  df <- parse_dates transactions ;;
  ret (head 10 (sort_values (fun r => timestamp (tx r)) false df)).

Definition display (r : row) : display_row :=
  mkDisplay (date_col r) (type (tx r)) (category (tx r)) (amount (tx r))
    (description (tx r)).

Definition get_recent_transactions (transactions : store) : list display_row :=
  try_except
    (match transactions with
     | [] => ret []
     | _ => df <- recent_df transactions ;; ret (map display df)
     end)
    (fun _ => []).

(** [add_transaction]; [now] is [datetime.now().isoformat()].  The result
    is the returned pair and the store after the call. *)
Definition add_transaction (now : string) (transactions : store)
  (transaction_type : string) (category : option string) (amount : option Q)
  (description : string) (date : string)
  : status * list display_row * store :=
  try_except
    (match amount with
     | None =>
         ret (InvalidAmount, get_recent_transactions transactions, transactions)
     | Some a =>
         if Qeq_bool a 0 || Qle_bool a 0 then
           ret (InvalidAmount, get_recent_transactions transactions,
                transactions)
         else if negb (truthy_string category) then
           ret (MissingCategory, get_recent_transactions transactions,
                transactions)
         else
           match Strptime.strptime date with
           | inl ValueError =>
               ret (InvalidDate, get_recent_transactions transactions,
                    transactions)
           | inl e => raise e
           | inr _ =>
               let transaction :=
                 mkTransaction (List.length transactions + 1) transaction_type
                   (value category) a
                   (or_default description "No description") date now in
               let transactions' := transactions ++ [transaction] in
               ret (Added transaction_type a,
                    get_recent_transactions transactions', transactions')
           end
     end)
    (fun e => (Error e, get_recent_transactions transactions, transactions)).

(** [filter_transactions_by_period]; [today] is [datetime.now().date()].
    The handler also prints the exception. *)
Definition filter_transactions_by_period (today : Calendar.date)
  (transactions : store) (period : string)
  (start_date end_date : option string) : dataframe :=
  try_except
    (match transactions with
     | [] => ret NoColumns
     | _ =>
         df <- parse_dates transactions ;;
         if String.eqb period "Today" then
           ret (Frame (filter (fun r => Calendar.date_eqb (date_col r) today) df))
         else if String.eqb period "This Week" then
           start_week <- of_option OverflowError
             (Calendar.sub_days today (Calendar.weekday today)) ;;
           ret (Frame (filter (fun r => Calendar.date_leb start_week (date_col r)) df))
         else if String.eqb period "This Month" then
           let start_month := Calendar.replace_day1 today in
           ret (Frame (filter (fun r => Calendar.date_leb start_month (date_col r)) df))
         else if String.eqb period "This Year" then
           let start_year := Calendar.replace_month1_day1 today in
           ret (Frame (filter (fun r => Calendar.date_leb start_year (date_col r)) df))
         else if String.eqb period "Custom Range" then
           if truthy_string start_date && truthy_string end_date then
             start_date' <- to_datetime (value start_date) ;;
             end_date' <- to_datetime (value end_date) ;;
             ret (Frame (filter (fun r =>
                    Calendar.date_leb start_date' (date_col r)
                    && Calendar.date_leb (date_col r) end_date') df))
           else ret (Frame df)
         else ret (Frame df)
     end)
    (fun _ => NoColumns).

Section Dashboard.

Variable today : Calendar.date.
Variable transactions : store.
Variable period : string.
Variables start_date end_date : option string.

Definition create_summary_cards : M summary_card :=
  let df := filter_transactions_by_period today transactions period
              start_date end_date in
  if empty df then ret NoDataAvailable
  else
    income_df <- select_type df "Income" ;;
    total_income <- sum_amount income_df ;;
    expense_df <- select_type df "Expense" ;;
    total_expenses <- sum_amount expense_df ;;
    let net_balance := (total_income - total_expenses)%Q in
    ret (SummaryCard period
           (mkSummary total_income total_expenses net_balance (len df))).

Definition create_expense_pie_chart : M figure :=
  let df := filter_transactions_by_period today transactions period
              start_date end_date in
  expense_df <- select_type df "Expense" ;;
  if empty expense_df then
    ret (Placeholder "No expense data available"
           "Expense Distribution by Category")
  else
    category_totals <-
      groupby_sum "category" String.compare (fun r => category (tx r))
        expense_df ;;
    ret (Pie (titled "Expense Distribution by Category" period)
           category_totals).

Definition create_income_pie_chart : M figure :=
  let df := filter_transactions_by_period today transactions period
              start_date end_date in
  income_df <- select_type df "Income" ;;
  if empty income_df then
    ret (Placeholder "No income data available"
           "Income Distribution by Category")
  else
    category_totals <-
      groupby_sum "category" String.compare (fun r => category (tx r))
        income_df ;;
    ret (Pie (titled "Income Distribution by Category" period)
           category_totals).

Definition create_trend_chart : M figure :=
  let df := filter_transactions_by_period today transactions period
              start_date end_date in
  if empty df then
    ret (Placeholder "No data available for trend analysis"
           "Income vs Expenses Trend")
  else
    daily_totals <-
      groupby_sum "date" (pair_compare Calendar.date_compare String.compare)
        (fun r => (date_col r, type (tx r))) df ;;
    let trace (transaction_type : string) :=
      let type_data :=
        filter (fun '(_, ty, _) => String.eqb ty transaction_type)
          daily_totals in
      match type_data with
      | [] => []
      | _ => [(transaction_type, map (fun '(d, _, a) => (d, a)) type_data)]
      end in
    ret (Trend (titled "Income vs Expenses Trend" period)
           (flat_map trace ["Income"; "Expense"]%string)).

Definition create_bar_chart : M figure :=
  let df := filter_transactions_by_period today transactions period
              start_date end_date in
  if empty df then
    ret (Placeholder "No data available" "Category Comparison")
  else
    category_totals <-
      groupby_sum "category" (pair_compare String.compare String.compare)
        (fun r => (category (tx r), type (tx r))) df ;;
    ret (Bar (titled "Category Comparison" period) category_totals).

Definition update_charts
  : M (summary_card * figure * figure * figure * figure) :=
  summary_cards <- create_summary_cards ;;
  expense_pie <- create_expense_pie_chart ;;
  income_pie <- create_income_pie_chart ;;
  trend_chart <- create_trend_chart ;;
  bar_chart <- create_bar_chart ;;
  ret (summary_cards, expense_pie, income_pie, trend_chart, bar_chart).

End Dashboard.

(** The stores the program can be in: [transactions = []] at start, and
    [add_transaction] the only function that assigns to it *)
Inductive reachable : store -> Prop :=
| reachable_init : reachable []
| reachable_add now transactions transaction_type category amount
    description date :
    reachable transactions ->
    reachable (snd (add_transaction now transactions transaction_type
                      category amount description date)).

End App.


(** ** Vocabulary of the statements *)

(** The amount is missing or not positive *)
Definition invalid_amount (amount : option Q) : Prop :=
  match amount with
  | None => True
  | Some a => (a <= 0)%Q
  end.

(** The amount is a positive number *)
Definition valid_amount (amount : option Q) : Prop :=
  match amount with
  | None => False
  | Some a => (0 < a)%Q
  end.

(** The category is absent or the empty string *)
Definition empty_category (category : option string) : Prop :=
  category = None \/ category = Some EmptyString.

(** The text is accepted by [strptime] with the format of the program *)
Definition parses (date : string) : Prop :=
  exists d, Strptime.strptime date = ret d.

(** The largest identifier of the store, 0 when it is empty *)
Definition max_id (transactions : store) : nat :=
  fold_right Nat.max 0%nat (map id transactions).


(** The strict order of strings *)
Definition string_lt (a b : string) : Prop := String.compare a b = Lt.

(** [totals] is the table of the rows [sel] grouped by category: its
    categories come in increasing order, each once; they are the
    categories of the rows; each line carries the sum of the amounts of
    the rows of its category. *)
Definition category_lines (sel : list row) (totals : list (string * Q))
  : Prop :=
  StronglySorted string_lt (map fst totals)
  /\ (forall k,
        In k (map fst totals) <-> exists r, In r sel /\ category (tx r) = k)
  /\ (forall k v,
        In (k, v) totals ->
        (v == Qsum (map (fun r => amount (tx r))
                      (filter (fun r => String.eqb (category (tx r)) k) sel)))%Q).




(** ** Sample stores *)

(** Two records stamped with the same clock reading, and a third one that
    is later by its timestamp and earlier by its date *)
Definition same_instant : store :=
  [mkTransaction 1 "Expense" "Travel" 20%Q "bus" "2024-03-12"
     "2024-03-15T10:00:00";
   mkTransaction 2 "Expense" "Travel" 30%Q "train" "2024-03-13"
     "2024-03-15T10:00:00";
   mkTransaction 3 "Income" "Salary" 1000%Q "pay" "2024-03-01"
     "2024-03-15T10:00:01"].

(** Friday 15 March 2024 *)
Definition friday : Calendar.date := Calendar.mkDate 2024 3 15.

(** A store with a record of the Sunday before the week of [friday], one
    of the first of the month, one of the year before and one dated in
    the future *)
Definition ledger : store :=
  [mkTransaction 1 "Expense" "Food & Dining" 50%Q "lunch" "2024-03-10"
     "2024-03-15T09:00:00";
   mkTransaction 2 "Income" "Salary" 1000%Q "pay" "2024-03-01"
     "2024-03-15T09:01:00";
   mkTransaction 3 "Expense" "Travel" 300%Q "flight" "2024-04-20"
     "2024-03-15T09:02:00";
   mkTransaction 4 "Expense" "Shopping" 80%Q "coat" "2023-12-31"
     "2024-03-15T09:03:00"].

Definition ledger_df : list row :=
  [mkRow (mkTransaction 1 "Expense" "Food & Dining" 50%Q "lunch" "2024-03-10"
            "2024-03-15T09:00:00") (Calendar.mkDate 2024 3 10);
   mkRow (mkTransaction 2 "Income" "Salary" 1000%Q "pay" "2024-03-01"
            "2024-03-15T09:01:00") (Calendar.mkDate 2024 3 1);
   mkRow (mkTransaction 3 "Expense" "Travel" 300%Q "flight" "2024-04-20"
            "2024-03-15T09:02:00") (Calendar.mkDate 2024 4 20);
   mkRow (mkTransaction 4 "Expense" "Shopping" 80%Q "coat" "2023-12-31"
            "2024-03-15T09:03:00") (Calendar.mkDate 2023 12 31)].

(** A stand-in for [pd.to_datetime] on the sample stores: it reads the ten
    ASCII characters YYYY-MM-DD and raises on every other text.  pandas
    reads many more texts than these; like this stand-in it reads
    "2024-03-14" and raises on "2024-01- 1", a text [strptime] accepts. *)
Fixpoint digits_and_dashes (s : string) : bool :=
  match s with
  | EmptyString => true
  | String c rest =>
      (match Strptime.digit c with
       | Some _ => true
       | None => Ascii.eqb c "-"%char
       end) && digits_and_dashes rest
  end.

Definition to_datetime_strict (s : string) : M Calendar.date :=
  if Nat.eqb (String.length s) 10 && digits_and_dashes s
  then Strptime.strptime s
  else raise ValueError.

(** A store whose first record carries a date that [strptime] accepts and
    the stand-in, like pandas, does not read *)
Definition spaced : store :=
  [mkTransaction 1 "Expense" "Travel" 40%Q "taxi" "2024-01- 1"
     "2024-03-15T08:00:00";
   mkTransaction 2 "Income" "Salary" 1000%Q "pay" "2024-03-14"
     "2024-03-15T08:01:00"].

(** ** Sums of amounts in binary64

    The program holds an amount as a Python [float].  The two sums the
    summary and a pie chart take of one column are not the same
    computation: [Series.sum()] adds a short column (fewer than 8 values)
    from left to right, and the sum of [groupby] is compensated (Kahan's
    summation, a running sum and a compensation for each group). *)

Module Binary64.

(** A row of the filtered frame: its type, its category, its amount *)
Record frow : Type := mkFrow {
  ftype : string;
  fcategory : string;
  famount : float
}.


(** One step of the group sum: [y = val - compensation], [t = sumx + y],
    [compensation = t - sumx - y], [sumx = t] *)
Definition kahan_add (st : float * float) (val : float) : float * float :=
  let '(sumx, compensation) := st in
  let y := (val - compensation)%float in
  let t := (sumx + y)%float in
  (t, (t - sumx - y)%float).

Fixpoint group_add (k : string) (val : float)
  (acc : list (string * (float * float))) : list (string * (float * float)) :=
  match acc with
  | [] => [(k, kahan_add (0%float, 0%float) val)]
  | (k', st) :: rest =>
      match String.compare k k' with
      | Eq => (k', kahan_add st val) :: rest
      | Lt => (k, kahan_add (0%float, 0%float) val) :: acc
      | Gt => (k', st) :: group_add k val rest
      end
  end.


(** [df[df['type'] == ty]] *)
Definition select_type (df : list frow) (ty : string) : list frow :=
  filter (fun r => String.eqb (ftype r) ty) df.



End Binary64.



(** * Properties *)

(** ** The calendar *)

Module CalendarFacts.

Import Calendar.

Lemma is_leap_decomp a b c d :
  0 <= b <= 3 -> 0 <= c <= 24 -> 0 <= d <= 3 ->
  is_leap (a * 400 + 1 + b * 100 + c * 4 + d)
  = (d =? 3) && (negb (c =? 24) || (b =? 3)).
Proof.
  intros Hb Hc Hd. unfold is_leap.
  repeat match goal with
         | |- context [?x =? ?y] => destruct (Z.eqb_spec x y)
         end; simpl; try reflexivity; exfalso;
    Z.to_euclidean_division_equations; lia.
Qed.

Lemma days_before_year_decomp a b c d :
  0 <= b <= 3 -> 0 <= c <= 24 -> 0 <= d <= 3 ->
  days_before_year (a * 400 + 1 + b * 100 + c * 4 + d)
  = a * DI400Y + b * DI100Y + c * DI4Y + d * 365.
Proof.
  intros Hb Hc Hd. unfold days_before_year, DI400Y, DI100Y, DI4Y.
  Z.to_euclidean_division_equations; lia.
Qed.

(** [month_day] on every day of a year but the last of a leap year, which
    [ord2ymd] treats apart: the check is run on the 365 indices. *)
Lemma month_day_spec leap n :
  0 <= n < 365 ->
  let '(m, d) := month_day leap n in
  1 <= m <= 12
  /\ 1 <= d <= DAYS_IN_MONTH m + b2z ((m =? 2) && leap)
  /\ DAYS_BEFORE_MONTH m + b2z ((2 <? m) && leap) + d = n + 1.
Proof.
  intros Hn.
  assert (Hall : forall lp, forallb (fun k =>
            let '(m, d) := month_day lp (Z.of_nat k) in
            (1 <=? m) && (m <=? 12) && (1 <=? d)
            && (d <=? DAYS_IN_MONTH m + b2z ((m =? 2) && lp))
            && (DAYS_BEFORE_MONTH m + b2z ((2 <? m) && lp) + d
                =? Z.of_nat k + 1)) (seq 0 365) = true)
    by (intros [|]; vm_compute; reflexivity).
  specialize (Hall leap). rewrite forallb_forall in Hall.
  specialize (Hall (Z.to_nat n)).
  rewrite Z2Nat.id in Hall by lia.
  destruct (month_day leap n) as [m d].
  assert (Hin : In (Z.to_nat n) (seq 0 365)) by (apply in_seq; lia).
  apply Hall in Hin.
  repeat (apply andb_prop in Hin; destruct Hin as [Hin ?]).
  lia.
Qed.

Lemma days_in_month_leap y m :
  days_in_month y m = DAYS_IN_MONTH m + b2z ((m =? 2) && is_leap y).
Proof.
  unfold days_in_month.
  destruct (Z.eqb_spec m 2) as [->|]; simpl; [|lia].
  destruct (is_leap y); reflexivity.
Qed.

(** [_ord2ymd] inverts [_ymd2ord] and yields a date *)
Lemma ord2ymd_spec n :
  1 <= n <= MAXORDINAL ->
  valid_date (ord2ymd n) /\ toordinal (ord2ymd n) = n.
Proof.
  intros Hn. unfold ord2ymd.
  pose proof (Z.div_mod (n - 1) DI400Y ltac:(discriminate)) as E4.
  pose proof (Z.mod_pos_bound (n - 1) DI400Y ltac:(reflexivity)) as B4.
  set (a := (n - 1) / DI400Y) in *. set (r1 := (n - 1) mod DI400Y) in *.
  pose proof (Z.div_mod r1 DI100Y ltac:(discriminate)) as E1.
  pose proof (Z.mod_pos_bound r1 DI100Y ltac:(reflexivity)) as B1.
  set (b := r1 / DI100Y) in *. set (r2 := r1 mod DI100Y) in *.
  pose proof (Z.div_mod r2 DI4Y ltac:(discriminate)) as Ec.
  pose proof (Z.mod_pos_bound r2 DI4Y ltac:(reflexivity)) as Bc.
  set (c := r2 / DI4Y) in *. set (r3 := r2 mod DI4Y) in *.
  pose proof (Z.div_mod r3 365 ltac:(discriminate)) as Ed.
  pose proof (Z.mod_pos_bound r3 365 ltac:(reflexivity)) as Bd.
  set (d := r3 / 365) in *. set (r4 := r3 mod 365) in *.
  clearbody a r1 b r2 c r3 d r4.
  unfold DI400Y, DI100Y, DI4Y, MAXORDINAL in *.
  assert (0 <= a <= 24) by lia.
  assert (0 <= b <= 4) by lia.
  assert (0 <= c <= 24) by lia.
  assert (0 <= d <= 4) by lia.
  destruct (Z.eqb_spec d 4) as [Hd4|Hd4]; simpl.
  - (* the last day of a leap year that ends a 4-year cycle *)
    assert (r4 = 0 /\ c <= 23 /\ b <= 3) as (-> & Hc & Hb) by lia.
    subst d.
    replace (a * 400 + 1 + b * 100 + c * 4 + 4 - 1)
      with (a * 400 + 1 + b * 100 + c * 4 + 3) by lia.
    unfold valid_date, toordinal, ymd2ord, days_before_month; cbn [year month day].
    rewrite days_in_month_leap.
    rewrite days_before_year_decomp by lia.
    rewrite is_leap_decomp by lia.
    replace (c =? 24) with false by (symmetry; apply Z.eqb_neq; lia).
    unfold MINYEAR, MAXYEAR, DI400Y, DI100Y, DI4Y. simpl. lia.
  - destruct (Z.eqb_spec b 4) as [Hb4|Hb4]; simpl.
    + (* the last day of a 400-year cycle *)
      assert (c = 0 /\ d = 0 /\ r4 = 0) as (-> & -> & ->) by lia.
      subst b.
      replace (a * 400 + 1 + 4 * 100 + 0 * 4 + 0 - 1)
        with (a * 400 + 1 + 3 * 100 + 24 * 4 + 3) by lia.
      unfold valid_date, toordinal, ymd2ord, days_before_month; cbn [year month day].
      rewrite days_in_month_leap.
      rewrite days_before_year_decomp by lia.
      rewrite is_leap_decomp by lia.
      unfold MINYEAR, MAXYEAR, DI400Y, DI100Y, DI4Y. simpl. lia.
    + pose proof (month_day_spec
                    ((d =? 3) && (negb (c =? 24) || (b =? 3))) r4 Bd) as Hmd.
      destruct (month_day _ r4) as [m dd].
      destruct Hmd as (Hm & Hdd & Hsum).
      unfold valid_date, toordinal, ymd2ord, days_before_month; cbn [year month day].
      rewrite days_in_month_leap.
      rewrite days_before_year_decomp by lia.
      rewrite is_leap_decomp by lia.
      unfold MINYEAR, MAXYEAR, DI400Y, DI100Y, DI4Y. lia.
Qed.

Ltac months_compute :=
  cbv [DAYS_BEFORE_MONTH DAYS_IN_MONTH b2z andb
       Z.eqb Z.ltb Z.compare Pos.eqb Pos.compare Pos.compare_cont] in *.

Lemma days_before_year_succ y :
  days_before_year (y + 1) = days_before_year y + 365 + b2z (is_leap y).
Proof.
  unfold days_before_year, is_leap, b2z.
  repeat match goal with
         | |- context [?x =? ?z] => destruct (Z.eqb_spec x z)
         end; simpl;
    Z.to_euclidean_division_equations; lia.
Qed.

Lemma days_before_year_le y y' :
  y <= y' -> days_before_year y <= days_before_year y'.
Proof.
  intros H. unfold days_before_year.
  rewrite <- !(Z.div_div _ 4 25), <- !(Z.div_div _ 4 100) by lia.
  assert (H4 : (y - 1) / 4 <= (y' - 1) / 4)
    by (apply Z.div_le_mono; lia).
  generalize dependent ((y - 1) / 4). generalize dependent ((y' - 1) / 4).
  intros u' u Hu.
  Z.to_euclidean_division_equations; lia.
Qed.

(** The days of one year, in calendar order *)
Lemma day_of_year_bounds y m d :
  1 <= m <= 12 -> 1 <= d <= days_in_month y m ->
  1 <= days_before_month y m + d <= 365 + b2z (is_leap y).
Proof.
  intros Hm Hd. rewrite days_in_month_leap in Hd.
  unfold days_before_month.
  assert (Hc : m = 1 \/ m = 2 \/ m = 3 \/ m = 4 \/ m = 5 \/ m = 6 \/ m = 7
               \/ m = 8 \/ m = 9 \/ m = 10 \/ m = 11 \/ m = 12) by lia.
  destruct (is_leap y);
    repeat (destruct Hc as [-> | Hc]); try subst m; months_compute; lia.
Qed.

Lemma day_of_year_lt y m d m' d' :
  1 <= m <= 12 -> 1 <= d <= days_in_month y m ->
  1 <= m' <= 12 -> 1 <= d' ->
  m < m' ->
  days_before_month y m + d < days_before_month y m' + d'.
Proof.
  intros Hm Hd Hm' Hd' Hlt. rewrite days_in_month_leap in Hd.
  unfold days_before_month.
  assert (Hc : m = 1 \/ m = 2 \/ m = 3 \/ m = 4 \/ m = 5 \/ m = 6 \/ m = 7
               \/ m = 8 \/ m = 9 \/ m = 10 \/ m = 11 \/ m = 12) by lia.
  assert (Hc' : m' = 2 \/ m' = 3 \/ m' = 4 \/ m' = 5 \/ m' = 6 \/ m' = 7
               \/ m' = 8 \/ m' = 9 \/ m' = 10 \/ m' = 11 \/ m' = 12) by lia.
  destruct (is_leap y);
    repeat (destruct Hc as [-> | Hc]); try subst m;
    repeat (destruct Hc' as [-> | Hc']); try subst m';
    months_compute; lia.
Qed.

Lemma toordinal_lt a b :
  valid_date a -> valid_date b ->
  date_compare a b = Lt -> toordinal a < toordinal b.
Proof.
  intros (Hya & Hma & Hda) (Hyb & Hmb & Hdb).
  unfold date_compare, toordinal, ymd2ord.
  destruct (Z.compare_spec (year a) (year b)) as [Ey|Ly|Gy];
    try discriminate.
  - rewrite Ey in *.
    destruct (Z.compare_spec (month a) (month b)) as [Em|Lm|Gm];
      try discriminate.
    + rewrite Em. intros Hd.
      pose proof (proj1 (Z.compare_lt_iff _ _) Hd). lia.
    + intros _.
      pose proof (day_of_year_lt (year b) _ _ _ (day b) Hma Hda Hmb
                    (proj1 Hdb) Lm).
      lia.
  - intros _.
    pose proof (day_of_year_bounds _ _ _ Hma Hda).
    pose proof (day_of_year_bounds _ _ _ Hmb Hdb).
    pose proof (days_before_year_succ (year a)).
    pose proof (days_before_year_le (year a + 1) (year b) ltac:(lia)).
    lia.
Qed.

Lemma date_compare_antisym a b :
  date_compare b a = CompOpp (date_compare a b).
Proof.
  unfold date_compare.
  rewrite (Z.compare_antisym (year a)), (Z.compare_antisym (month a)),
    (Z.compare_antisym (day a)).
  destruct (year a ?= year b); simpl; try reflexivity.
  destruct (month a ?= month b); simpl; reflexivity.
Qed.

Lemma date_compare_eq a b : date_compare a b = Eq -> a = b.
Proof.
  unfold date_compare. destruct a as [y m d], b as [y' m' d']; simpl.
  destruct (Z.compare_spec y y'); try discriminate.
  destruct (Z.compare_spec m m'); try discriminate.
  intros H1. apply Z.compare_eq in H1. congruence.
Qed.

(** On dates, the order of [datetime.date] is the order of the ordinals *)
Lemma date_compare_toordinal a b :
  valid_date a -> valid_date b ->
  date_compare a b = (toordinal a ?= toordinal b).
Proof.
  intros Ha Hb. symmetry.
  destruct (date_compare a b) eqn:E.
  - apply date_compare_eq in E. subst. apply Z.compare_refl.
  - apply Z.compare_lt_iff. now apply toordinal_lt.
  - apply Z.compare_gt_iff. apply toordinal_lt; trivial.
    rewrite date_compare_antisym, E. reflexivity.
Qed.

Lemma date_leb_toordinal a b :
  valid_date a -> valid_date b ->
  date_leb a b = (toordinal a <=? toordinal b).
Proof.
  intros Ha Hb. unfold date_leb, Z.leb.
  now rewrite date_compare_toordinal.
Qed.

Lemma valid_dateb_spec d : valid_dateb d = true <-> valid_date d.
Proof.
  unfold valid_dateb, valid_date.
  rewrite !andb_true_iff, !Z.leb_le. tauto.
Qed.

(** [today - timedelta(days=today.weekday())] does not overflow and is the
    Monday of the week of [today] *)
Lemma start_week_spec today :
  valid_date today ->
  exists start_week,
    sub_days today (weekday today) = Some start_week
    /\ valid_date start_week
    /\ weekday start_week = 0
    /\ toordinal today - 6 <= toordinal start_week <= toordinal today
    /\ date_leb start_week today = true.
Proof.
  intros Hv.
  assert (Ht : 1 <= toordinal today <= MAXORDINAL).
  { destruct Hv as (Hy & Hm & Hd).
    pose proof (day_of_year_bounds _ _ _ Hm Hd).
    pose proof (days_before_year_le 1 (year today) (proj1 Hy)).
    pose proof (days_before_year_le (year today + 1) 10000
                  ltac:(unfold MAXYEAR in *; lia)).
    pose proof (days_before_year_succ (year today)).
    change (days_before_year 1) with 0 in *.
    change (days_before_year 10000) with 3652059 in *.
    unfold toordinal, ymd2ord, MAXORDINAL. lia. }
  unfold sub_days, weekday.
  pose proof (Z.mod_pos_bound (toordinal today + 6) 7 ltac:(reflexivity)).
  assert (Hw : (toordinal today + 6) mod 7 <= toordinal today - 1)
    by (Z.to_euclidean_division_equations; lia).
  set (o := toordinal today - (toordinal today + 6) mod 7).
  assert (Ho : 1 <= o <= MAXORDINAL) by (unfold o; lia).
  replace ((0 <? o) && (o <=? MAXORDINAL)) with true
    by (symmetry; apply andb_true_iff; split;
        [apply Z.ltb_lt | apply Z.leb_le]; lia).
  destruct (ord2ymd_spec o Ho) as [Hvo Hoo].
  exists (ord2ymd o). repeat split; try apply Hvo.
  - rewrite Hoo. unfold o. Z.to_euclidean_division_equations; lia.
  - rewrite Hoo. unfold o. lia.
  - rewrite Hoo. unfold o. lia.
  - rewrite date_leb_toordinal by assumption.
    apply Z.leb_le. rewrite Hoo. unfold o. lia.
Qed.

End CalendarFacts.

(** ** [strptime] *)

Lemma strptime_cases s :
  Strptime.strptime s = raise ValueError
  \/ exists d, Strptime.strptime s = ret d /\ Calendar.valid_date d.
Proof.
  unfold Strptime.strptime.
  destruct (Strptime.matches s) as [|[[[y m] d] rest] ?]; [now left|].
  destruct rest; [|now left].
  destruct (Calendar.valid_dateb _) eqn:E; [|now left].
  right. eexists. split; [reflexivity|].
  now apply CalendarFacts.valid_dateb_spec.
Qed.

Lemma not_parses_raises s :
  ~ parses s -> Strptime.strptime s = raise ValueError.
Proof.
  intros H. destruct (strptime_cases s) as [E | (d & E & _)]; trivial.
  exfalso. apply H. now exists d.
Qed.

(** ** [add_transaction] *)

Section AddTransaction.

Variable to_datetime : string -> M Calendar.date.

Lemma amount_guard a : Qeq_bool a 0 || Qle_bool a 0 = Qle_bool a 0.
Proof.
  destruct (Qeq_bool a 0) eqn:E; simpl; trivial.
  symmetry. apply Qle_bool_iff. apply Qeq_bool_eq in E. rewrite E.
  apply Qle_refl.
Qed.

Lemma add_invalid_amount now transactions ty category amount description date :
  invalid_amount amount ->
  add_transaction to_datetime now transactions ty category amount description date
  = (InvalidAmount, get_recent_transactions to_datetime transactions, transactions).
Proof.
  unfold add_transaction.
  destruct amount as [a|]; simpl; trivial.
  intros H. rewrite amount_guard.
  apply Qle_bool_iff in H. now rewrite H.
Qed.

Lemma valid_amount_guard amount :
  valid_amount amount ->
  exists a, amount = Some a /\ Qeq_bool a 0 || Qle_bool a 0 = false.
Proof.
  destruct amount as [a|]; simpl; [|tauto].
  intros H. exists a. split; trivial. rewrite amount_guard.
  destruct (Qle_bool a 0) eqn:E; trivial.
  apply Qle_bool_iff in E. exfalso. exact (Qlt_not_le _ _ H E).
Qed.

Lemma add_missing_category now transactions ty category amount description
  date :
  valid_amount amount -> empty_category category ->
  add_transaction to_datetime now transactions ty category amount description date
  = (MissingCategory, get_recent_transactions to_datetime transactions, transactions).
Proof.
  intros Ha Hc. destruct (valid_amount_guard _ Ha) as (a & -> & G).
  unfold add_transaction. rewrite G.
  destruct Hc as [-> | ->]; reflexivity.
Qed.

Lemma nonempty_truthy category :
  ~ empty_category category ->
  exists c, category = Some c /\ c <> EmptyString
            /\ truthy_string category = true.
Proof.
  unfold empty_category. intros H.
  destruct category as [[|ch c]|]; try tauto.
  eexists. repeat split. discriminate.
Qed.

Lemma add_invalid_date now transactions ty category amount description date :
  valid_amount amount -> ~ empty_category category -> ~ parses date ->
  add_transaction to_datetime now transactions ty category amount description date
  = (InvalidDate, get_recent_transactions to_datetime transactions, transactions).
Proof.
  intros Ha Hc Hd. destruct (valid_amount_guard _ Ha) as (a & -> & G).
  destruct (nonempty_truthy _ Hc) as (c & -> & _ & T).
  unfold add_transaction. rewrite G, T.
  cbn. now rewrite (not_parses_raises _ Hd).
Qed.

Lemma add_valid now transactions ty category amount description date :
  valid_amount amount -> ~ empty_category category -> parses date ->
  exists a c,
    amount = Some a /\ category = Some c /\ c <> EmptyString
    /\ let t := mkTransaction (List.length transactions + 1) ty c a
                  (or_default description "No description") date now in
       add_transaction to_datetime now transactions ty category amount description date
       = (Added ty a, get_recent_transactions to_datetime (transactions ++ [t]),
          transactions ++ [t]).
Proof.
  intros Ha Hc (d & Hd). destruct (valid_amount_guard _ Ha) as (a & -> & G).
  destruct (nonempty_truthy _ Hc) as (c & -> & Hne & T).
  exists a, c. repeat split; trivial.
  unfold add_transaction. rewrite G, T.
  cbn. now rewrite Hd.
Qed.

Lemma amount_dec amount : {valid_amount amount} + {invalid_amount amount}.
Proof.
  destruct amount as [a|]; simpl; [|now right].
  destruct (Qlt_le_dec 0 a); [now left | now right].
Qed.

Lemma empty_category_dec category :
  {empty_category category} + {~ empty_category category}.
Proof.
  unfold empty_category.
  destruct category as [[|ch c]|];
    [left; now right | right; intros [?|?]; discriminate | left; now left].
Qed.

Lemma parses_dec date : {parses date} + {~ parses date}.
Proof.
  unfold parses. destruct (Strptime.strptime date) as [e|d] eqn:E.
  - right. intros (d & Hd). discriminate.
  - left. now exists d.
Qed.

(** The store after a call: unchanged, or one record longer *)
Lemma add_transaction_store now transactions ty category amount description
  date :
  snd (add_transaction to_datetime now transactions ty category amount
         description date) = transactions
  \/ exists a c,
       amount = Some a /\ (0 < a)%Q /\ category = Some c
       /\ c <> EmptyString /\ parses date
       /\ snd (add_transaction to_datetime now transactions ty category amount
                 description date)
          = transactions
              ++ [mkTransaction (List.length transactions + 1) ty c a
                    (or_default description "No description") date now].
Proof.
  destruct (amount_dec amount) as [Ha|Ha].
  2: { left. now rewrite add_invalid_amount. }
  destruct (empty_category_dec category) as [Hc|Hc].
  { left. now rewrite add_missing_category. }
  destruct (parses_dec date) as [Hd|Hd].
  2: { left. now rewrite add_invalid_date. }
  right.
  destruct (add_valid now transactions ty category amount description date
              Ha Hc Hd) as (a & c & -> & -> & Hne & E).
  exists a, c. cbv zeta in E. rewrite E. repeat split; trivial.
Qed.

(** Invariants of the store *)

Lemma reachable_ids transactions :
  reachable to_datetime transactions ->
  map id transactions = seq 1 (List.length transactions).
Proof.
  induction 1 as [|now s ty category amount description date Hr IH].
  - reflexivity.
  - destruct (add_transaction_store now s ty category amount description date)
      as [E | (a & c & _ & _ & _ & _ & _ & E)]; rewrite E; trivial.
    rewrite map_app, length_app, IH, seq_app.
    f_equal. cbn. f_equal. lia.
Qed.






(** C5.  An invalid input (the amount missing or not positive, the
    category empty, or a date [strptime] rejects) makes [add_transaction]
    return one of its three validation messages, never the message of the
    outer handler, and leaves the store exactly as it was. *)
Theorem add_transaction_invalid_unchanged now transactions ty category amount
  description date :
  invalid_amount amount \/ empty_category category \/ ~ parses date ->
  exists st,
    add_transaction to_datetime now transactions ty category amount
      description date
    = (st, get_recent_transactions to_datetime transactions, transactions)
    /\ (st = InvalidAmount \/ st = MissingCategory \/ st = InvalidDate).
Proof.
  intros H.
  destruct (amount_dec amount) as [Ha|Ha].
  2: { exists InvalidAmount. split; [now apply add_invalid_amount | tauto]. }
  destruct (empty_category_dec category) as [Hc|Hc].
  { exists MissingCategory.
    split; [now apply add_missing_category | tauto]. }
  destruct (parses_dec date) as [Hd|Hd].
  2: { exists InvalidDate. split; [now apply add_invalid_date | tauto]. }
  exfalso. destruct H as [H | [H | H]]; try tauto.
  destruct amount as [a|]; simpl in *; trivial.
  exact (Qlt_not_le _ _ Ha H).
Qed.

(** C10.  The validations run in a fixed order: a bad amount is reported
    whatever the category and the date are; with a good amount an empty
    category is reported whatever the date is; the date message is the
    one returned when the amount and the category are good and only the
    date is bad. *)
Theorem add_transaction_validation_order now transactions ty category amount
  description date :
  let status :=
    fst (fst (add_transaction to_datetime now transactions ty category amount
                description date)) in
  (invalid_amount amount -> status = InvalidAmount)
  /\ (valid_amount amount -> empty_category category ->
      status = MissingCategory)
  /\ (valid_amount amount -> ~ empty_category category -> ~ parses date ->
      status = InvalidDate).
Proof.
  cbv zeta. repeat split; intros.
  - now rewrite add_invalid_amount.
  - now rewrite add_missing_category.
  - now rewrite add_invalid_date.
Qed.



End AddTransaction.

(** *** The statements at concrete inputs *)

Lemma add_transaction_validation_order_witness :
  fst (fst (add_transaction Strptime.strptime "2024-03-15T10:00:00"
              same_instant "Expense" (Some ""%string) (Some 0%Q) ""
              "10/03/2024"))
  = InvalidAmount
  /\ fst (fst (add_transaction Strptime.strptime "2024-03-15T10:00:00"
                 same_instant "Expense" (Some ""%string) (Some 5%Q) ""
                 "10/03/2024"))
     = MissingCategory
  /\ fst (fst (add_transaction Strptime.strptime "2024-03-15T10:00:00"
                 same_instant "Expense" (Some "Travel"%string) (Some 5%Q) ""
                 "10/03/2024"))
     = InvalidDate.
Proof.
  split; [|split].
  - apply (proj1 (add_transaction_validation_order Strptime.strptime
                    "2024-03-15T10:00:00" same_instant "Expense"
                    (Some ""%string) (Some 0%Q) "" "10/03/2024")).
    simpl. unfold Qle. simpl. lia.
  - apply (proj1 (proj2 (add_transaction_validation_order Strptime.strptime
                    "2024-03-15T10:00:00" same_instant "Expense"
                    (Some ""%string) (Some 5%Q) "" "10/03/2024"))).
    + simpl. reflexivity.
    + right. reflexivity.
  - apply (proj2 (proj2 (add_transaction_validation_order Strptime.strptime
                    "2024-03-15T10:00:00" same_instant "Expense"
                    (Some "Travel"%string) (Some 5%Q) "" "10/03/2024"))).
    + simpl. reflexivity.
    + intros [H | H]; discriminate H.
    + intros (d & H). vm_compute in H. discriminate H.
Defined.




(** ** Sorting: [sort_values] and [head] *)

Section Sorting.

Context {A : Type} (leb : A -> A -> bool).

Hypothesis leb_total : forall a b, leb a b = true \/ leb b a = true.
Hypothesis leb_trans :
  forall a b c, leb a b = true -> leb b c = true -> leb a c = true.

Let le (a b : A) : Prop := leb a b = true.

Lemma insert_sorted_perm x l : Permutation (insert_sorted leb x l) (x :: l).
Proof.
  induction l as [|y l IH]; simpl.
  - apply Permutation_refl.
  - destruct (leb x y).
    + apply Permutation_refl.
    + apply perm_trans with (y :: x :: l).
      * now apply perm_skip.
      * apply perm_swap.
Qed.

Lemma argsort_perm l : Permutation (argsort leb l) l.
Proof.
  induction l as [|x l IH]; simpl.
  - apply perm_nil.
  - apply perm_trans with (x :: argsort leb l).
    + apply insert_sorted_perm.
    + now apply perm_skip.
Qed.

Lemma insert_sorted_sorted x l :
  StronglySorted le l -> StronglySorted le (insert_sorted leb x l).
Proof.
  induction 1 as [|y l Hs IH Hy]; simpl.
  - repeat constructor.
  - destruct (leb x y) eqn:E.
    + constructor; [now constructor|].
      constructor; [exact E|].
      eapply Forall_impl; [|exact Hy].
      intros z Hz. now apply leb_trans with y.
    + constructor; [exact IH|].
      apply (Permutation_Forall (Permutation_sym (insert_sorted_perm x l))).
      constructor; [|exact Hy].
      destruct (leb_total x y) as [H|H]; [congruence | exact H].
Qed.

Lemma argsort_sorted l : StronglySorted le (argsort leb l).
Proof.
  induction l as [|x l IH]; simpl.
  - constructor.
  - now apply insert_sorted_sorted.
Qed.

End Sorting.

Lemma StronglySorted_app_inv {A : Type} (R : A -> A -> Prop) l1 l2 :
  StronglySorted R l1 -> StronglySorted R l2 ->
  (forall a b, In a l1 -> In b l2 -> R a b) ->
  StronglySorted R (l1 ++ l2).
Proof.
  intros H1 H2 H. induction H1 as [|x l1 Hs IH Hx]; simpl; trivial.
  constructor.
  - apply IH. intros a b Ha Hb. apply H; simpl; auto.
  - apply Forall_app. split; trivial.
    apply Forall_forall. intros b Hb. apply H; simpl; auto.
Qed.

Lemma StronglySorted_rev {A : Type} (R : A -> A -> Prop) l :
  StronglySorted R l -> StronglySorted (fun a b => R b a) (rev l).
Proof.
  induction 1 as [|x l Hs IH Hx]; simpl.
  - constructor.
  - apply StronglySorted_app_inv; trivial.
    + repeat constructor.
    + intros a b Ha [<-|[]]. apply in_rev in Ha.
      rewrite Forall_forall in Hx. now apply Hx.
Qed.

Lemma StronglySorted_firstn {A : Type} (R : A -> A -> Prop) n l :
  StronglySorted R l -> StronglySorted R (firstn n l).
Proof.
  intros H. revert n. induction H as [|x l Hs IH Hx]; intros [|n]; simpl;
    try constructor.
  - apply IH.
  - rewrite Forall_forall in *. intros y Hy. apply Hx.
    rewrite <- (firstn_skipn n l). apply in_or_app. now left.
Qed.

(** The order of strings *)

Lemma string_leb_trans a b c :
  String.leb a b = true -> String.leb b c = true -> String.leb a c = true.
Proof.
  unfold String.leb.
  destruct (String.compare a b) eqn:Eab; try discriminate;
    destruct (String.compare b c) eqn:Ebc; try discriminate; intros _ _.
  - apply String.compare_eq_iff in Eab. subst. now rewrite Ebc.
  - apply String.compare_eq_iff in Eab. subst. now rewrite Ebc.
  - apply String.compare_eq_iff in Ebc. subst. now rewrite Eab.
  - apply String_as_OT.cmp_lt in Eab, Ebc.
    pose proof (String_as_OT.lt_trans _ _ _ Eab Ebc) as H.
    apply String_as_OT.cmp_lt in H. unfold String_as_OT.cmp in H.
    now rewrite H.
Qed.

(** A descending [sort_values] permutes the frame and orders its keys from
    the largest to the smallest *)
Lemma sort_values_descending {A : Type} (by_ : A -> string) (df : list A) :
  Permutation (sort_values by_ false df) df
  /\ StronglySorted (fun a b => String.leb (by_ b) (by_ a) = true)
       (sort_values by_ false df).
Proof.
  unfold sort_values. split.
  - apply perm_trans with (argsort (fun a b => String.leb (by_ a) (by_ b))
                             (rev df)).
    + apply Permutation_sym, Permutation_rev.
    + apply perm_trans with (rev df).
      * apply argsort_perm.
      * apply Permutation_sym, Permutation_rev.
  - apply (StronglySorted_rev
             (fun a b => String.leb (by_ a) (by_ b) = true)).
    apply argsort_sorted.
    + intros a b. apply String.leb_total.
    + intros a b c. apply string_leb_trans.
Qed.

(** ** [get_recent_transactions] *)

Lemma head_firstn {A : Type} n (df : list A) : head n df = firstn n df.
Proof. reflexivity. Qed.

Lemma ret_inj {A : Type} (a b : A) : ret a = ret b -> a = b.
Proof. now intros [= ->]. Qed.

Section Recent.

Variable to_datetime : string -> M Calendar.date.

(** Parsing the date column keeps the rows and their order *)
Lemma parse_dates_tx transactions df :
  parse_dates to_datetime transactions = ret df -> map tx df = transactions.
Proof.
  unfold parse_dates. revert df.
  induction transactions as [|t l IH]; intros df; simpl.
  - now intros [= <-].
  - destruct (to_datetime (date t)) as [e|d]; simpl; [discriminate|].
    destruct (mapM _ l) as [e|df']; simpl; [discriminate|].
    intros [= <-]. simpl. f_equal. now apply IH.
Qed.

Lemma recent_df_cases transactions :
  (exists e, recent_df to_datetime transactions = raise e)
  \/ exists df,
       parse_dates to_datetime transactions = ret df
       /\ recent_df to_datetime transactions
          = ret (head 10 (sort_values (fun r => timestamp (tx r)) false df)).
Proof.
  unfold recent_df.
  destruct (parse_dates to_datetime transactions) as [e|df]; simpl.
  - left. now exists e.
  - right. now exists df.
Qed.

Lemma get_recent_transactions_eq transactions df :
  recent_df to_datetime transactions = ret df ->
  get_recent_transactions to_datetime transactions = map display df.
Proof.
  intros E. unfold get_recent_transactions.
  destruct transactions as [|t l].
  - cbv in E. injection E as <-. reflexivity.
  - rewrite E. reflexivity.
Qed.

(** C6, as the program has it.  The table of recent transactions never
    has more than 10 lines; when pandas reads the dates of the store, its
    lines are records of the store, as many as the store has up to 10,
    ordered by [timestamp] from the latest to the earliest, whatever
    their [date] is.  Nothing is said of records with equal timestamps. *)
Theorem recent_transactions_sorted transactions :
  (List.length (get_recent_transactions to_datetime transactions) <= 10)%nat
  /\ forall df,
       recent_df to_datetime transactions = ret df ->
       get_recent_transactions to_datetime transactions = map display df
       /\ List.length df = Nat.min 10 (List.length transactions)
       /\ (forall r, In r df -> In (tx r) transactions)
       /\ StronglySorted
            (fun a b =>
               String.leb (timestamp (tx b)) (timestamp (tx a)) = true) df.
Proof.
  assert (Hdf : forall df,
             recent_df to_datetime transactions = ret df ->
             List.length df = Nat.min 10 (List.length transactions)
             /\ (forall r, In r df -> In (tx r) transactions)
             /\ StronglySorted
                  (fun a b =>
                     String.leb (timestamp (tx b)) (timestamp (tx a)) = true)
                  df).
  { intros df E.
    destruct (recent_df_cases transactions) as [(e & E') | (df0 & P & E')];
      rewrite E' in E; [discriminate|].
    apply ret_inj in E. subst df.
    destruct (sort_values_descending (fun r => timestamp (tx r)) df0)
      as [Hp Hs].
    pose proof (parse_dates_tx _ _ P) as Htx.
    split; [|split].
    - rewrite head_firstn, length_firstn, (Permutation_length Hp).
      rewrite <- Htx, length_map. reflexivity.
    - intros r Hr. rewrite head_firstn in Hr.
      assert (In r df0).
      { apply (Permutation_in _ Hp).
        rewrite <- (firstn_skipn 10 (sort_values _ false df0)).
        apply in_or_app. now left. }
      rewrite <- Htx. now apply in_map.
    - rewrite head_firstn. now apply StronglySorted_firstn. }
  split.
  - destruct (recent_df to_datetime transactions) as [e|df] eqn:E.
    + unfold get_recent_transactions. destruct transactions as [|t l].
      * simpl. lia.
      * rewrite E. simpl. lia.
    + rewrite (get_recent_transactions_eq _ _ E), length_map.
      destruct (Hdf df eq_refl) as [-> _]. lia.
  - intros df E. split; [now apply get_recent_transactions_eq|].
    now apply Hdf.
Qed.

End Recent.

Lemma same_instant_reachable : reachable Strptime.strptime same_instant.
Proof.
  pose proof (reachable_add Strptime.strptime "2024-03-15T10:00:00" []
                "Expense" (Some "Travel"%string) (Some 20%Q) "bus"
                "2024-03-12" (reachable_init _)) as H1.
  match type of H1 with
  | reachable _ (snd ?r) =>
      replace r with
        (Added "Expense" 20%Q,
         get_recent_transactions Strptime.strptime (firstn 1 same_instant),
         firstn 1 same_instant) in H1 by (vm_compute; reflexivity)
  end.
  cbn [snd] in H1.
  pose proof (reachable_add Strptime.strptime "2024-03-15T10:00:00" _
                "Expense" (Some "Travel"%string) (Some 30%Q) "train"
                "2024-03-13" H1) as H2.
  match type of H2 with
  | reachable _ (snd ?r) =>
      replace r with
        (Added "Expense" 30%Q,
         get_recent_transactions Strptime.strptime (firstn 2 same_instant),
         firstn 2 same_instant) in H2 by (vm_compute; reflexivity)
  end.
  cbn [snd] in H2.
  pose proof (reachable_add Strptime.strptime "2024-03-15T10:00:01" _
                "Income" (Some "Salary"%string) (Some 1000%Q) "pay"
                "2024-03-01" H2) as H3.
  match type of H3 with
  | reachable _ (snd ?r) =>
      replace r with
        (Added "Income" 1000%Q,
         get_recent_transactions Strptime.strptime same_instant,
         same_instant) in H3 by (vm_compute; reflexivity)
  end.
  exact H3.
Qed.

Lemma same_instant_recent :
  recent_df Strptime.strptime same_instant
  = ret [mkRow (mkTransaction 3 "Income" "Salary" 1000%Q "pay" "2024-03-01"
                  "2024-03-15T10:00:01") (Calendar.mkDate 2024 3 1);
         mkRow (mkTransaction 1 "Expense" "Travel" 20%Q "bus" "2024-03-12"
                  "2024-03-15T10:00:00") (Calendar.mkDate 2024 3 12);
         mkRow (mkTransaction 2 "Expense" "Travel" 30%Q "train" "2024-03-13"
                  "2024-03-15T10:00:00") (Calendar.mkDate 2024 3 13)].
Proof. vm_compute. reflexivity. Qed.

Lemma recent_transactions_sorted_witness :
  get_recent_transactions Strptime.strptime same_instant
  = map display
      [mkRow (mkTransaction 3 "Income" "Salary" 1000%Q "pay" "2024-03-01"
                "2024-03-15T10:00:01") (Calendar.mkDate 2024 3 1);
       mkRow (mkTransaction 1 "Expense" "Travel" 20%Q "bus" "2024-03-12"
                "2024-03-15T10:00:00") (Calendar.mkDate 2024 3 12);
       mkRow (mkTransaction 2 "Expense" "Travel" 30%Q "train" "2024-03-13"
                "2024-03-15T10:00:00") (Calendar.mkDate 2024 3 13)].
Proof.
  apply (proj2 (recent_transactions_sorted Strptime.strptime same_instant)).
  vm_compute. reflexivity.
Defined.

(** C6 as the specification words it fails: in a store the program
    reaches, two records with the same timestamp are listed with the
    smaller identifier first. *)
Lemma recent_ties_not_by_id_descending :
  reachable Strptime.strptime same_instant
  /\ exists later a b,
       recent_df Strptime.strptime same_instant = ret [later; a; b]
       /\ timestamp (tx a) = timestamp (tx b)
       /\ (id (tx a) < id (tx b))%nat
       /\ ~ (id (tx b) < id (tx a))%nat.
Proof.
  split; [exact same_instant_reachable|].
  rewrite same_instant_recent.
  do 3 eexists. split; [reflexivity|]. cbn. split; [reflexivity|]. lia.
Qed.

(** ** The order of dates *)

Lemma date_leb_spec a b :
  Calendar.date_leb a b = true
  <-> Calendar.year a < Calendar.year b
      \/ (Calendar.year a = Calendar.year b
          /\ (Calendar.month a < Calendar.month b
              \/ (Calendar.month a = Calendar.month b
                  /\ Calendar.day a <= Calendar.day b))).
Proof.
  unfold Calendar.date_leb, Calendar.date_compare.
  destruct (Z.compare_spec (Calendar.year a) (Calendar.year b));
    [|split; [lia | trivial] | split; [discriminate | lia]].
  destruct (Z.compare_spec (Calendar.month a) (Calendar.month b));
    [|split; [lia | trivial] | split; [discriminate | lia]].
  destruct (Z.compare_spec (Calendar.day a) (Calendar.day b));
    [split; [lia | trivial] | split; [lia | trivial]
    | split; [discriminate | lia]].
Qed.

Lemma date_leb_trans a b c :
  Calendar.date_leb a b = true -> Calendar.date_leb b c = true ->
  Calendar.date_leb a c = true.
Proof. rewrite !date_leb_spec. lia. Qed.

Lemma replace_day1_leb today :
  Calendar.valid_date today ->
  Calendar.date_leb (Calendar.replace_day1 today) today = true.
Proof.
  intros (_ & _ & Hd). apply date_leb_spec. simpl. lia.
Qed.

Lemma replace_month1_day1_leb today :
  Calendar.valid_date today ->
  Calendar.date_leb (Calendar.replace_month1_day1 today) today = true.
Proof.
  intros (_ & Hm & Hd). apply date_leb_spec. simpl. lia.
Qed.

(** ** [filter_transactions_by_period] *)

Section Filter.

Variable to_datetime : string -> M Calendar.date.
Variable today : Calendar.date.

Lemma parse_dates_nil df :
  parse_dates to_datetime [] = ret df -> df = [].
Proof. intros H. now apply ret_inj in H. Qed.

(** The frame returned for each period, when pandas reads the dates of the
    store *)

Lemma filter_this_week transactions df start_date end_date start_week :
  parse_dates to_datetime transactions = ret df ->
  Calendar.sub_days today (Calendar.weekday today) = Some start_week ->
  rows_of (filter_transactions_by_period to_datetime today transactions
             "This Week" start_date end_date)
  = filter (fun r => Calendar.date_leb start_week (date_col r)) df.
Proof.
  intros P W. unfold filter_transactions_by_period.
  destruct transactions as [|t l].
  - apply parse_dates_nil in P. now subst.
  - rewrite P, W. reflexivity.
Qed.

Lemma filter_this_month transactions df start_date end_date :
  parse_dates to_datetime transactions = ret df ->
  rows_of (filter_transactions_by_period to_datetime today transactions
             "This Month" start_date end_date)
  = filter (fun r =>
              Calendar.date_leb (Calendar.replace_day1 today) (date_col r)) df.
Proof.
  intros P. unfold filter_transactions_by_period.
  destruct transactions as [|t l].
  - apply parse_dates_nil in P. now subst.
  - rewrite P. reflexivity.
Qed.

Lemma filter_this_year transactions df start_date end_date :
  parse_dates to_datetime transactions = ret df ->
  rows_of (filter_transactions_by_period to_datetime today transactions
             "This Year" start_date end_date)
  = filter (fun r =>
              Calendar.date_leb (Calendar.replace_month1_day1 today)
                (date_col r)) df.
Proof.
  intros P. unfold filter_transactions_by_period.
  destruct transactions as [|t l].
  - apply parse_dates_nil in P. now subst.
  - rewrite P. reflexivity.
Qed.

Lemma filter_custom_range transactions df start_date end_date ds de :
  parse_dates to_datetime transactions = ret df ->
  truthy_string start_date = true -> truthy_string end_date = true ->
  to_datetime (value start_date) = ret ds ->
  to_datetime (value end_date) = ret de ->
  rows_of (filter_transactions_by_period to_datetime today transactions
             "Custom Range" start_date end_date)
  = filter (fun r =>
              Calendar.date_leb ds (date_col r)
              && Calendar.date_leb (date_col r) de) df.
Proof.
  intros P Ts Te Ps Pe. unfold filter_transactions_by_period.
  destruct transactions as [|t l].
  - apply parse_dates_nil in P. now subst.
  - rewrite P, Ts, Te. cbn. rewrite Ps, Pe. reflexivity.
Qed.

Lemma filter_custom_unbounded transactions df start_date end_date :
  parse_dates to_datetime transactions = ret df ->
  truthy_string start_date && truthy_string end_date = false ->
  rows_of (filter_transactions_by_period to_datetime today transactions
             "Custom Range" start_date end_date)
  = df.
Proof.
  intros P T. unfold filter_transactions_by_period.
  destruct transactions as [|t l].
  - apply parse_dates_nil in P. now subst.
  - rewrite P, T. reflexivity.
Qed.

Lemma filter_custom_unparsed transactions start_date end_date :
  truthy_string start_date = true -> truthy_string end_date = true ->
  (exists e, to_datetime (value start_date) = raise e)
  \/ (exists e, to_datetime (value end_date) = raise e) ->
  filter_transactions_by_period to_datetime today transactions
    "Custom Range" start_date end_date
  = NoColumns.
Proof.
  intros Ts Te H. unfold filter_transactions_by_period.
  destruct transactions as [|t l]; [reflexivity|].
  destruct (parse_dates to_datetime (t :: l)) as [e|df]; [reflexivity|].
  rewrite Ts, Te. cbn.
  destruct H as [(e & ->) | (e & He)]; [reflexivity|].
  destruct (to_datetime (value start_date)); [reflexivity|].
  cbn. rewrite He. reflexivity.
Qed.

(** C2.  With [today] a date and the dates of the store read by pandas,
    "This Week", "This Month" and "This Year" keep exactly the rows dated
    on or after the start of the period: the Monday of the week of
    [today], the first day of its month, the first of January of its
    year.  No upper bound applies: a row dated [today] or later is kept
    by the three filters. *)
Theorem named_periods_lower_bound_only transactions df start_date end_date :
  Calendar.valid_date today ->
  parse_dates to_datetime transactions = ret df ->
  let rows period :=
    rows_of (filter_transactions_by_period to_datetime today transactions
               period start_date end_date) in
  exists monday,
    Calendar.sub_days today (Calendar.weekday today) = Some monday
    /\ Calendar.weekday monday = 0
    /\ Calendar.toordinal today - 6 <= Calendar.toordinal monday
       <= Calendar.toordinal today
    /\ rows "This Week"%string
       = filter (fun r => Calendar.date_leb monday (date_col r)) df
    /\ rows "This Month"%string
       = filter (fun r =>
                   Calendar.date_leb
                     (Calendar.mkDate (Calendar.year today)
                        (Calendar.month today) 1) (date_col r)) df
    /\ rows "This Year"%string
       = filter (fun r =>
                   Calendar.date_leb
                     (Calendar.mkDate (Calendar.year today) 1 1)
                     (date_col r)) df
    /\ forall r,
         In r df -> Calendar.date_leb today (date_col r) = true ->
         In r (rows "This Week"%string)
         /\ In r (rows "This Month"%string)
         /\ In r (rows "This Year"%string).
Proof.
  intros Hv P rows.
  destruct (CalendarFacts.start_week_spec today Hv)
    as (monday & W & _ & Hw & Hord & Hle).
  exists monday. unfold rows.
  rewrite (filter_this_week _ _ _ _ _ P W), (filter_this_month _ _ _ _ P),
    (filter_this_year _ _ _ _ P).
  repeat (split; [solve [trivial | lia]|]).
  intros r Hr Hd. rewrite !filter_In.
  repeat split; trivial; eapply date_leb_trans; try exact Hd; trivial.
  - now apply replace_day1_leb.
  - now apply replace_month1_day1_leb.
Qed.

(** C7.  For "Custom Range", with the dates of the store read by pandas:
    when both bounds are supplied and read as dates, the rows kept are
    exactly those dated from the first bound to the second, both
    included; when a bound is missing ([None] or the empty string), every
    row is kept. *)
Theorem custom_range_bounds transactions df start_date end_date :
  parse_dates to_datetime transactions = ret df ->
  let rows :=
    rows_of (filter_transactions_by_period to_datetime today transactions
               "Custom Range" start_date end_date) in
  (forall ds de,
      truthy_string start_date = true -> truthy_string end_date = true ->
      to_datetime (value start_date) = ret ds ->
      to_datetime (value end_date) = ret de ->
      rows = filter (fun r =>
                       Calendar.date_leb ds (date_col r)
                       && Calendar.date_leb (date_col r) de) df
      /\ forall r,
           In r rows
           <-> In r df /\ Calendar.date_leb ds (date_col r) = true
               /\ Calendar.date_leb (date_col r) de = true)
  /\ (truthy_string start_date = false \/ truthy_string end_date = false ->
      rows = df).
Proof.
  intros P rows. split.
  - intros ds de Ts Te Ps Pe. unfold rows.
    rewrite (filter_custom_range _ _ _ _ _ _ P Ts Te Ps Pe).
    split; trivial. intros r. rewrite filter_In, andb_true_iff. tauto.
  - intros H. apply (filter_custom_unbounded _ _ _ _ P).
    destruct H as [-> | ->]; [reflexivity | apply andb_false_r].
Qed.

(** C8, as the program has it.  When both custom bounds are supplied and
    pandas cannot read one of them, the exception is caught inside the
    filter, which returns the frame without columns; the summary then
    reports that no data is available, as it does for an empty
    selection. *)
Theorem custom_range_unparsed_bound transactions start_date end_date :
  truthy_string start_date = true -> truthy_string end_date = true ->
  (exists e, to_datetime (value start_date) = raise e)
  \/ (exists e, to_datetime (value end_date) = raise e) ->
  filter_transactions_by_period to_datetime today transactions
    "Custom Range" start_date end_date = NoColumns
  /\ create_summary_cards to_datetime today transactions "Custom Range"
       start_date end_date = ret NoDataAvailable.
Proof.
  intros Ts Te H.
  pose proof (filter_custom_unparsed transactions _ _ Ts Te H) as E.
  split; trivial. unfold create_summary_cards. rewrite E. reflexivity.
Qed.

End Filter.

(** *** The filters at a concrete store *)

Lemma ledger_dates : parse_dates Strptime.strptime ledger = ret ledger_df.
Proof. vm_compute. reflexivity. Qed.

Lemma friday_valid : Calendar.valid_date friday.
Proof. apply CalendarFacts.valid_dateb_spec. reflexivity. Qed.

Example ledger_this_week :
  map (fun r => id (tx r))
    (rows_of (filter_transactions_by_period Strptime.strptime friday ledger
                "This Week" None None)) = [3%nat]
  /\ map (fun r => id (tx r))
       (rows_of (filter_transactions_by_period Strptime.strptime friday ledger
                   "This Month" None None)) = [1%nat; 2%nat; 3%nat]
  /\ map (fun r => id (tx r))
       (rows_of (filter_transactions_by_period Strptime.strptime friday ledger
                   "This Year" None None)) = [1%nat; 2%nat; 3%nat]
  /\ map (fun r => id (tx r))
       (rows_of (filter_transactions_by_period Strptime.strptime friday ledger
                   "Today" None None)) = [].
Proof. vm_compute. repeat split. Qed.

Lemma named_periods_lower_bound_only_witness :
  let rows period :=
    rows_of (filter_transactions_by_period Strptime.strptime friday ledger
               period None None) in
  exists monday,
    Calendar.sub_days friday (Calendar.weekday friday) = Some monday
    /\ Calendar.weekday monday = 0
    /\ Calendar.toordinal friday - 6 <= Calendar.toordinal monday
       <= Calendar.toordinal friday
    /\ rows "This Week"%string
       = filter (fun r => Calendar.date_leb monday (date_col r)) ledger_df
    /\ rows "This Month"%string
       = filter (fun r =>
                   Calendar.date_leb
                     (Calendar.mkDate (Calendar.year friday)
                        (Calendar.month friday) 1) (date_col r)) ledger_df
    /\ rows "This Year"%string
       = filter (fun r =>
                   Calendar.date_leb
                     (Calendar.mkDate (Calendar.year friday) 1 1)
                     (date_col r)) ledger_df
    /\ forall r,
         In r ledger_df -> Calendar.date_leb friday (date_col r) = true ->
         In r (rows "This Week"%string)
         /\ In r (rows "This Month"%string)
         /\ In r (rows "This Year"%string).
Proof.
  apply (named_periods_lower_bound_only Strptime.strptime friday ledger
           ledger_df None None).
  - exact friday_valid.
  - exact ledger_dates.
Defined.

Lemma custom_range_bounds_witness :
  let rows :=
    rows_of (filter_transactions_by_period Strptime.strptime friday ledger
               "Custom Range" (Some "2024-03-01"%string)
               (Some "2024-03-10"%string)) in
  rows = filter (fun r =>
                   Calendar.date_leb (Calendar.mkDate 2024 3 1) (date_col r)
                   && Calendar.date_leb (date_col r)
                        (Calendar.mkDate 2024 3 10)) ledger_df
  /\ forall r,
       In r rows
       <-> In r ledger_df
           /\ Calendar.date_leb (Calendar.mkDate 2024 3 1) (date_col r) = true
           /\ Calendar.date_leb (date_col r) (Calendar.mkDate 2024 3 10)
              = true.
Proof.
  apply (proj1 (custom_range_bounds Strptime.strptime friday ledger ledger_df
                  (Some "2024-03-01"%string) (Some "2024-03-10"%string)
                  ledger_dates)).
  - reflexivity.
  - reflexivity.
  - vm_compute. reflexivity.
  - vm_compute. reflexivity.
Defined.

Example ledger_custom_range :
  map (fun r => id (tx r))
    (rows_of (filter_transactions_by_period Strptime.strptime friday ledger
                "Custom Range" (Some "2024-03-01"%string)
                (Some "2024-03-10"%string))) = [1%nat; 2%nat]
  /\ map (fun r => id (tx r))
       (rows_of (filter_transactions_by_period Strptime.strptime friday ledger
                   "Custom Range" (Some "2024-03-01"%string) None))
     = [1%nat; 2%nat; 3%nat; 4%nat].
Proof. vm_compute. repeat split. Qed.

Lemma custom_range_unparsed_bound_witness :
  filter_transactions_by_period Strptime.strptime friday ledger
    "Custom Range" (Some "2024-03-01"%string) (Some "31/03/2024"%string)
  = NoColumns
  /\ create_summary_cards Strptime.strptime friday ledger "Custom Range"
       (Some "2024-03-01"%string) (Some "31/03/2024"%string)
     = ret NoDataAvailable.
Proof.
  apply (custom_range_unparsed_bound Strptime.strptime friday ledger
           (Some "2024-03-01"%string) (Some "31/03/2024"%string)).
  - reflexivity.
  - reflexivity.
  - right. exists ValueError. vm_compute. reflexivity.
Defined.

(** C8 as the specification words it fails: a custom bound that is not a
    date raises nothing out of the filter; the call returns a frame, the
    empty one, and the summary is the message shown for no data. *)
Lemma unparsed_bound_returns_empty_frame :
  Strptime.strptime "yesterday" = raise ValueError
  /\ filter_transactions_by_period Strptime.strptime friday ledger
       "Custom Range" (Some "yesterday"%string) (Some "2024-12-31"%string)
     = NoColumns
  /\ empty (filter_transactions_by_period Strptime.strptime friday ledger
              "Custom Range" (Some "yesterday"%string)
              (Some "2024-12-31"%string)) = true
  /\ create_summary_cards Strptime.strptime friday ledger "Custom Range"
       (Some "yesterday"%string) (Some "2024-12-31"%string)
     = ret NoDataAvailable
  /\ ~ exists e,
        create_summary_cards Strptime.strptime friday ledger "Custom Range"
          (Some "yesterday"%string) (Some "2024-12-31"%string)
        = raise e.
Proof.
  assert (E : create_summary_cards Strptime.strptime friday ledger
                "Custom Range" (Some "yesterday"%string)
                (Some "2024-12-31"%string) = ret NoDataAvailable)
    by (vm_compute; reflexivity).
  split; [vm_compute; reflexivity|].
  split; [vm_compute; reflexivity|].
  split; [vm_compute; reflexivity|].
  split; [exact E|].
  intros (e & H). rewrite E in H. discriminate H.
Qed.

(** ** Aggregation *)



Lemma Qsum_cons x l : Qsum (x :: l) = (x + Qsum l)%Q.
Proof. reflexivity. Qed.

(** The lines of a grouping by category that carry the key [k] add up to
    the amounts of the rows of that category *)
Lemma group_add_category k0 k v acc :
  (Qsum (map snd (filter (fun p => String.eqb (fst p) k)
                    (group_add String.compare k0 v acc)))
   == Qsum (map snd (filter (fun p => String.eqb (fst p) k) acc))
      + (if String.eqb k0 k then v else 0))%Q.
Proof.
  induction acc as [|[k' v'] rest IH]; cbn [group_add].
  - cbn. destruct (String.eqb k0 k); cbn; ring.
  - destruct (String.compare k0 k') eqn:C.
    + apply String.compare_eq_iff in C. subst k'.
      cbn. destruct (String.eqb k0 k); cbn; ring.
    + cbn. destruct (String.eqb k0 k), (String.eqb k' k); cbn; ring.
    + cbn [filter fst]. destruct (String.eqb k' k); cbn [map snd].
      * rewrite !Qsum_cons, IH. ring.
      * exact IH.
Qed.

Lemma groupby_category k rows acc :
  (Qsum (map snd
           (filter (fun p => String.eqb (fst p) k)
              (fold_left
                 (fun acc r =>
                    group_add String.compare (category (tx r))
                      (amount (tx r)) acc) rows acc)))
   == Qsum (map snd (filter (fun p => String.eqb (fst p) k) acc))
      + Qsum (map (fun r => amount (tx r))
                (filter (fun r => String.eqb (category (tx r)) k) rows)))%Q.
Proof.
  revert acc. induction rows as [|r rows IH]; intros acc; cbn [fold_left].
  - cbn. ring.
  - rewrite IH, group_add_category. cbn [filter].
    destruct (String.eqb (category (tx r)) k); cbn [map];
      rewrite ?Qsum_cons; ring.
Qed.

Section Aggregation.

Variable to_datetime : string -> M Calendar.date.
Variable today : Calendar.date.
Variable transactions : store.
Variable period : string.
Variables start_date end_date : option string.

Let df : dataframe :=
  filter_transactions_by_period to_datetime today transactions period
    start_date end_date.



(** What an empty selection gives when the frame has its columns: the
    message or the placeholder of every view *)
Lemma empty_selection_no_data :
  df = Frame [] ->
  create_summary_cards to_datetime today transactions period start_date
    end_date = ret NoDataAvailable
  /\ create_expense_pie_chart to_datetime today transactions period
       start_date end_date
     = ret (Placeholder "No expense data available"
              "Expense Distribution by Category")
  /\ create_income_pie_chart to_datetime today transactions period
       start_date end_date
     = ret (Placeholder "No income data available"
              "Income Distribution by Category")
  /\ create_trend_chart to_datetime today transactions period start_date
       end_date
     = ret (Placeholder "No data available for trend analysis"
              "Income vs Expenses Trend")
  /\ create_bar_chart to_datetime today transactions period start_date
       end_date
     = ret (Placeholder "No data available" "Category Comparison").
Proof.
  unfold create_summary_cards, create_expense_pie_chart,
    create_income_pie_chart, create_trend_chart, create_bar_chart.
  fold df. intros ->. repeat split.
Qed.

(** What the frame without columns gives: the two pie charts select the
    column [type] before they test for emptiness, and raise [KeyError] *)
Lemma no_columns_pie_charts_raise :
  df = NoColumns ->
  create_summary_cards to_datetime today transactions period start_date
    end_date = ret NoDataAvailable
  /\ create_expense_pie_chart to_datetime today transactions period
       start_date end_date = raise (KeyError "type")
  /\ create_income_pie_chart to_datetime today transactions period
       start_date end_date = raise (KeyError "type")
  /\ create_trend_chart to_datetime today transactions period start_date
       end_date
     = ret (Placeholder "No data available for trend analysis"
              "Income vs Expenses Trend")
  /\ create_bar_chart to_datetime today transactions period start_date
       end_date
     = ret (Placeholder "No data available" "Category Comparison")
  /\ update_charts to_datetime today transactions period start_date end_date
     = raise (KeyError "type").
Proof.
  unfold update_charts, create_summary_cards, create_expense_pie_chart,
    create_income_pie_chart, create_trend_chart, create_bar_chart.
  fold df. intros ->. repeat split.
Qed.

End Aggregation.

(** C9 on the empty store.  The summary, the trend chart and the bar chart
    answer with their "no data" message; the two pie charts raise
    [KeyError] instead of returning their placeholder, and so does
    [update_charts], which the page calls when it loads. *)
Theorem empty_store_pie_charts_raise to_datetime today period start_date
  end_date :
  filter_transactions_by_period to_datetime today [] period start_date
    end_date = NoColumns
  /\ create_summary_cards to_datetime today [] period start_date end_date
     = ret NoDataAvailable
  /\ create_expense_pie_chart to_datetime today [] period start_date end_date
     = raise (KeyError "type")
  /\ create_income_pie_chart to_datetime today [] period start_date end_date
     = raise (KeyError "type")
  /\ create_trend_chart to_datetime today [] period start_date end_date
     = ret (Placeholder "No data available for trend analysis"
              "Income vs Expenses Trend")
  /\ create_bar_chart to_datetime today [] period start_date end_date
     = ret (Placeholder "No data available" "Category Comparison")
  /\ update_charts to_datetime today [] period start_date end_date
     = raise (KeyError "type").
Proof.
  split; [reflexivity|].
  now apply no_columns_pie_charts_raise.
Qed.


(** ** The scenarios of the specification, run on the model *)

(** Scenario B: an expense of 50 on 2024-03-10 and an income of 1000 on
    2024-03-01, seen on 2024-03-15 for "This Month" *)
Example scenario_B :
  let s1 := snd (add_transaction Strptime.strptime "2024-03-15T09:00:00" []
                   "Expense" (Some "Food & Dining"%string) (Some 50%Q) ""
                   "2024-03-10") in
  let s2 := snd (add_transaction Strptime.strptime "2024-03-15T09:01:00" s1
                   "Income" (Some "Salary"%string) (Some 1000%Q) ""
                   "2024-03-01") in
  create_summary_cards Strptime.strptime friday s2 "This Month" None None
  = ret (SummaryCard "This Month" (mkSummary 1000%Q 50%Q 950%Q 2)).
Proof. vm_compute. reflexivity. Qed.

(** Scenario C: two expenses of one category on one day make one group *)
Example scenario_C :
  create_expense_pie_chart Strptime.strptime friday (firstn 2 same_instant)
    "This Month" None None
  = ret (Pie "Expense Distribution by Category (This Month)"
           [("Travel"%string, 50%Q)]).
Proof. vm_compute. reflexivity. Qed.

(** The dates [strptime] accepts and refuses *)
Example strptime_samples :
  Strptime.strptime "2024-03-10" = ret (Calendar.mkDate 2024 3 10)
  /\ Strptime.strptime "2024-3-5" = ret (Calendar.mkDate 2024 3 5)
  /\ Strptime.strptime "2024-02-29" = ret (Calendar.mkDate 2024 2 29)
  /\ Strptime.strptime "2023-02-29" = raise ValueError
  /\ Strptime.strptime "2024-13-01" = raise ValueError
  /\ Strptime.strptime "2024-01-310" = raise ValueError
  /\ Strptime.strptime "10/03/2024" = raise ValueError
  /\ Strptime.strptime "0000-01-01" = raise ValueError
  /\ Strptime.strptime "" = raise ValueError.
Proof. vm_compute. repeat split. Qed.

(** 15 March 2024 is day 738960 and a Friday; the Monday of its week is
    the 11th *)
Example calendar_samples :
  Calendar.toordinal friday = 738960
  /\ Calendar.ord2ymd 738960 = friday
  /\ Calendar.weekday friday = 4
  /\ Calendar.sub_days friday (Calendar.weekday friday)
     = Some (Calendar.mkDate 2024 3 11)
  /\ Calendar.ord2ymd Calendar.MAXORDINAL = Calendar.mkDate 9999 12 31
  /\ Calendar.ord2ymd 1 = Calendar.mkDate 1 1 1.
Proof. vm_compute. repeat split. Qed.

(** * Further properties of the program *)

(** ** The store under [add_transaction] *)

Section StoreFacts.

Variable to_datetime : string -> M Calendar.date.

Lemma or_default_nonempty s d : d <> EmptyString -> or_default s d <> EmptyString.
Proof. destruct s; simpl; [trivial | discriminate]. Qed.

(** The outcome of a call, by cases on the three validations *)
Lemma add_transaction_outcome now transactions ty cat amt descr dt :
  (~ (valid_amount amt /\ ~ empty_category cat /\ parses dt)
   /\ exists st,
        (st = InvalidAmount \/ st = MissingCategory \/ st = InvalidDate)
        /\ add_transaction to_datetime now transactions ty cat amt descr dt
           = (st, get_recent_transactions to_datetime transactions,
              transactions))
  \/ (valid_amount amt /\ ~ empty_category cat /\ parses dt
      /\ exists a c,
           amt = Some a /\ cat = Some c
           /\ add_transaction to_datetime now transactions ty cat amt descr dt
              = (Added ty a,
                 get_recent_transactions to_datetime
                   (transactions
                      ++ [mkTransaction (List.length transactions + 1) ty c a
                            (or_default descr "No description") dt now]),
                 transactions
                   ++ [mkTransaction (List.length transactions + 1) ty c a
                         (or_default descr "No description") dt now])).
Proof.
  destruct (amount_dec amt) as [Ha|Ha].
  2: { left. split.
       - intros (Hv & _). destruct amt as [a|]; simpl in *; trivial.
         exact (Qlt_not_le _ _ Hv Ha).
       - exists InvalidAmount. split; [tauto|]. now apply add_invalid_amount. }
  destruct (empty_category_dec cat) as [Hc|Hc].
  { left. split; [tauto|]. exists MissingCategory.
    split; [tauto|]. now apply add_missing_category. }
  destruct (parses_dec dt) as [Hd|Hd].
  2: { left. split; [tauto|]. exists InvalidDate.
       split; [tauto|]. now apply add_invalid_date. }
  right. repeat (split; trivial).
  destruct (add_valid to_datetime now transactions ty cat amt descr dt
              Ha Hc Hd) as (a & c & -> & -> & _ & E).
  exists a, c. repeat split; trivial.
Qed.

(** X1.  The store is append-only: whatever the input, the records already
    stored are kept as they are and in their order, and at most one
    record is added after them. *)
Theorem add_transaction_append_only now transactions ty cat amt descr dt :
  exists added,
    snd (add_transaction to_datetime now transactions ty cat amt descr dt)
    = transactions ++ added
    /\ (List.length added <= 1)%nat.
Proof.
  destruct (add_transaction_outcome now transactions ty cat amt descr dt)
    as [(_ & st & _ & E) | (_ & _ & _ & a & c & _ & _ & E)]; rewrite E.
  - exists []. split; [symmetry; apply app_nil_r | simpl; lia].
  - eexists. split; [reflexivity | simpl; lia].
Qed.

(** X2.  The table returned beside the status line is always the table of
    recent transactions of the store as the call leaves it: of the
    unchanged store after a refusal, of the extended store after a
    success. *)
Theorem add_transaction_returns_current_table now transactions ty cat amt
  descr dt :
  let r := add_transaction to_datetime now transactions ty cat amt descr dt in
  snd (fst r) = get_recent_transactions to_datetime (snd r).
Proof.
  cbv zeta.
  destruct (add_transaction_outcome now transactions ty cat amt descr dt)
    as [(_ & st & _ & E) | (_ & _ & _ & a & c & _ & _ & E)]; rewrite E;
    reflexivity.
Qed.

(** X3.  The status line tells what happened to the store: it is the
    success message exactly when one record was appended, and under any
    other status the store is left as it was. *)
Theorem add_transaction_status_tells_store now transactions ty cat amt descr
  dt :
  let r := add_transaction to_datetime now transactions ty cat amt descr dt in
  ((exists a, fst (fst r) = Added ty a)
   <-> exists t, snd r = transactions ++ [t])
  /\ ((forall a, fst (fst r) <> Added ty a) -> snd r = transactions).
Proof.
  cbv zeta.
  destruct (add_transaction_outcome now transactions ty cat amt descr dt)
    as [(Hn & st & Hst & E) | (Ha & Hc & Hd & a & c & _ & _ & E)]; rewrite E;
    cbn [fst snd].
  - split.
    + split.
      * intros (a & H). destruct Hst as [-> | [-> | ->]]; discriminate H.
      * intros (t & H). exfalso.
        apply (f_equal (@List.length _)) in H. rewrite length_app in H.
        simpl in H. lia.
    + reflexivity.
  - split.
    + split; intros _; [now eexists | now exists a].
    + intros H. exfalso. now apply (H a).
Qed.

(** The fields of the records of a store the program reaches *)
Lemma reachable_records transactions :
  reachable to_datetime transactions ->
  Forall (fun t =>
            category t <> EmptyString
            /\ description t <> EmptyString
            /\ exists d, Strptime.strptime (date t) = ret d
                         /\ Calendar.valid_date d) transactions.
Proof.
  induction 1 as [|now s ty cat amt descr dt Hr IH].
  - constructor.
  - destruct (add_transaction_store to_datetime now s ty cat amt descr dt)
      as [E | (a & c & _ & Ha & _ & Hc & (d & Hd) & E)]; rewrite E; trivial.
    apply Forall_app. split; trivial.
    constructor; [|constructor]. cbn.
    repeat split; trivial.
    + apply or_default_nonempty. discriminate.
    + destruct (strptime_cases dt) as [F | (d' & F & V)].
      * rewrite F in Hd. discriminate Hd.
      * now exists d'.
Qed.

(** X4.  In every store the program reaches, the record at position [i]
    (from 0) has identifier [i + 1], a category and a description that
    are not empty, and a date text that [strptime] reads as a date of the
    calendar. *)
Theorem reachable_store_invariants transactions i t :
  reachable to_datetime transactions ->
  nth_error transactions i = Some t ->
  id t = S i
  /\ category t <> EmptyString
  /\ description t <> EmptyString
  /\ exists d, Strptime.strptime (date t) = ret d /\ Calendar.valid_date d.
Proof.
  intros Hr Hi. split.
  - pose proof (reachable_ids to_datetime _ Hr) as Hids.
    pose proof (map_nth_error id _ _ Hi) as Hm.
    rewrite Hids in Hm.
    assert (Hlt : (i < List.length transactions)%nat)
      by (apply nth_error_Some; congruence).
    rewrite (nth_error_nth' _ 0%nat) in Hm by (rewrite length_seq; exact Hlt).
    rewrite seq_nth in Hm by exact Hlt.
    injection Hm as Hm. lia.
  - pose proof (reachable_records _ Hr) as Hall.
    rewrite Forall_forall in Hall.
    exact (Hall t (nth_error_In _ _ Hi)).
Qed.

End StoreFacts.

Lemma reachable_store_invariants_witness :
  id (mkTransaction 2 "Expense" "Travel" 30%Q "train" "2024-03-13"
        "2024-03-15T10:00:00") = 2%nat
  /\ category (mkTransaction 2 "Expense" "Travel" 30%Q "train" "2024-03-13"
                 "2024-03-15T10:00:00") <> EmptyString
  /\ description (mkTransaction 2 "Expense" "Travel" 30%Q "train"
                    "2024-03-13" "2024-03-15T10:00:00") <> EmptyString
  /\ exists d,
       Strptime.strptime
         (date (mkTransaction 2 "Expense" "Travel" 30%Q "train" "2024-03-13"
                  "2024-03-15T10:00:00")) = ret d
       /\ Calendar.valid_date d.
Proof.
  apply (reachable_store_invariants Strptime.strptime same_instant 1).
  - exact same_instant_reachable.
  - reflexivity.
Defined.

(** ** [strftime] and [strptime] *)

Lemma decimal_digit_char x rest :
  0 <= x <= 9 ->
  Strptime.decimal (String (Strftime.digit_char x) rest) = Some (x, rest).
Proof.
  intros H.
  assert (C : x = 0 \/ x = 1 \/ x = 2 \/ x = 3 \/ x = 4 \/ x = 5 \/ x = 6
              \/ x = 7 \/ x = 8 \/ x = 9) by lia.
  repeat (destruct C as [-> | C]; [reflexivity|]). subst x. reflexivity.
Qed.

Lemma year_alts_four_digits y rest :
  0 <= y <= 9999 ->
  Strptime.year_alts (Strftime.four_digits y rest) = [(y, rest)].
Proof.
  intros H. unfold Strptime.year_alts, Strftime.four_digits.
  rewrite !decimal_digit_char
    by (Z.to_euclidean_division_equations; lia).
  f_equal; f_equal. Z.to_euclidean_division_equations; lia.
Qed.

(** After the year, the pattern reads back the month and the day that
    [strftime] wrote: checked on the 12 x 31 pairs *)
Lemma month_day_read_back (y m d : Z) :
  1 <= m <= 12 -> 1 <= d <= 31 ->
  hd_error
    (flat_map (fun s2 =>
       flat_map (fun '(m', s3) =>
         flat_map (fun s4 =>
           map (fun '(d', s5) => (y, m', d', s5)) (Strptime.day_alts s4))
         (Strptime.dash s3))
       (Strptime.month_alts s2))
     (Strptime.dash
        (String "-" (Strftime.two_digits m
                       (String "-" (Strftime.two_digits d EmptyString))))))
  = Some (y, m, d, EmptyString).
Proof.
  intros Hm Hd.
  assert (Cm : In m (map Z.of_nat (seq 1 12)))
    by (apply in_map_iff; exists (Z.to_nat m); split;
        [lia | apply in_seq; lia]).
  assert (Cd : In d (map Z.of_nat (seq 1 31)))
    by (apply in_map_iff; exists (Z.to_nat d); split;
        [lia | apply in_seq; lia]).
  clear Hm Hd. revert d Cd. revert m Cm.
  refine (proj1 (Forall_forall _ _) _).
  cbn [map seq Z.of_nat Pos.of_succ_nat Pos.succ].
  repeat (constructor;
          [refine (proj1 (Forall_forall _ _) _);
           cbn [map seq Z.of_nat Pos.of_succ_nat Pos.succ];
           repeat (constructor; [vm_compute; reflexivity|]); constructor|]).
  constructor.
Qed.

(** X5.  Round trip: a date of a year of four digits, written by
    [strftime] in the format of the program, is read back by [strptime]
    as the same date; the date the form proposes is never refused. *)
Theorem strptime_strftime d :
  Calendar.valid_date d -> 1000 <= Calendar.year d ->
  Strptime.strptime (Strftime.strftime d) = ret d.
Proof.
  intros Hv Hy. pose proof Hv as (Hyear & Hm & Hd).
  assert (Hd31 : 1 <= Calendar.day d <= 31).
  { split; [lia|]. eapply Z.le_trans; [apply Hd|].
    rewrite CalendarFacts.days_in_month_leap.
    assert (C : Calendar.month d = 1 \/ Calendar.month d = 2
                \/ Calendar.month d = 3 \/ Calendar.month d = 4
                \/ Calendar.month d = 5 \/ Calendar.month d = 6
                \/ Calendar.month d = 7 \/ Calendar.month d = 8
                \/ Calendar.month d = 9 \/ Calendar.month d = 10
                \/ Calendar.month d = 11 \/ Calendar.month d = 12) by lia.
    destruct (Calendar.is_leap (Calendar.year d));
      repeat (destruct C as [-> | C]; [cbn; lia|]); rewrite C; cbn; lia. }
  unfold Strptime.strptime, Strptime.matches, Strftime.strftime.
  rewrite year_alts_four_digits
    by (unfold Calendar.MINYEAR, Calendar.MAXYEAR in Hyear; lia).
  cbn [flat_map]. rewrite app_nil_r.
  pose proof (month_day_read_back (Calendar.year d) _ _ Hm Hd31) as Hhd.
  match goal with
  | |- context [match ?l with [] => _ | _ :: _ => _ end] =>
      destruct l as [|[[[y' m'] d'] rest] tl]
  end; [discriminate Hhd|].
  cbn in Hhd. injection Hhd as -> -> -> ->.
  replace (Calendar.mkDate (Calendar.year d) (Calendar.month d)
             (Calendar.day d)) with d by (now destruct d).
  now rewrite (proj2 (CalendarFacts.valid_dateb_spec d) Hv).
Qed.

Lemma strptime_strftime_witness :
  Strptime.strptime (Strftime.strftime friday) = ret friday.
Proof.
  apply (strptime_strftime friday).
  - exact friday_valid.
  - cbn. lia.
Defined.

Example strftime_friday : Strftime.strftime friday = "2024-03-15"%string.
Proof. reflexivity. Qed.

(** ** The table of recent transactions *)


Section RecentFacts.

Variable to_datetime : string -> M Calendar.date.

(** pandas reads the date column when it reads each of its dates *)
Lemma parse_dates_cases transactions :
  (exists df, parse_dates to_datetime transactions = ret df)
  \/ (exists e, parse_dates to_datetime transactions = raise e)
     /\ exists t e, In t transactions /\ to_datetime (date t) = raise e.
Proof.
  unfold parse_dates.
  induction transactions as [|t l IH]; simpl.
  - left. now eexists.
  - destruct (to_datetime (date t)) as [e|d] eqn:E; simpl.
    + right. split; [now exists e|]. exists t, e. auto.
    + destruct IH as [(df & ->) | ((e & ->) & t' & e' & Hin & Ht)]; simpl.
      * left. now eexists.
      * right. split; [now exists e|]. exists t', e'. auto.
Qed.

Lemma parse_dates_all transactions df :
  parse_dates to_datetime transactions = ret df ->
  Forall (fun t => exists d, to_datetime (date t) = ret d) transactions.
Proof.
  unfold parse_dates. revert df.
  induction transactions as [|t l IH]; intros df; simpl; [constructor|].
  destruct (to_datetime (date t)) as [e|d] eqn:E; simpl; [discriminate|].
  destruct (mapM _ l) as [e|df'] eqn:E'; simpl; [discriminate|].
  intros _. constructor; [now exists d | now apply (IH df')].
Qed.

(** X6.  The table is empty exactly when the store is empty or pandas
    cannot read the date of some stored record: one unreadable date
    empties the whole table, and no exception leaves the function. *)
Theorem recent_table_empty_iff transactions :
  get_recent_transactions to_datetime transactions = []
  <-> transactions = []
      \/ exists t e, In t transactions /\ to_datetime (date t) = raise e.
Proof.
  destruct transactions as [|t0 l]; [split; [now left | reflexivity]|].
  unfold get_recent_transactions, recent_df.
  destruct (parse_dates_cases (t0 :: l))
    as [(df & P) | ((e & P) & t & e' & Hin & Ht)]; rewrite P;
    cbn [bind ret raise try_except].
  - split.
    + intros H. exfalso.
      apply (f_equal (@List.length _)) in H.
      rewrite length_map, head_firstn, length_firstn in H.
      destruct (sort_values_descending (fun r => timestamp (tx r)) df)
        as [Hp _].
      rewrite (Permutation_length Hp) in H.
      rewrite <- (length_map tx), (parse_dates_tx _ _ _ P) in H.
      simpl in H. lia.
    + intros [H | (t & e & Hin & Ht)]; [discriminate H|]. exfalso.
      pose proof (parse_dates_all _ _ P) as Hall.
      rewrite Forall_forall in Hall.
      destruct (Hall t Hin) as (d & Hd). rewrite Hd in Ht. discriminate Ht.
  - split; [|reflexivity]. intros _. right. now exists t, e'.
Qed.


End RecentFacts.


(** ** More on the period filter *)

Lemma date_compare_refl a : Calendar.date_compare a a = Eq.
Proof.
  unfold Calendar.date_compare. now rewrite !Z.compare_refl.
Qed.

Lemma date_eqb_eq a b : Calendar.date_eqb a b = true <-> a = b.
Proof.
  unfold Calendar.date_eqb. split.
  - destruct (Calendar.date_compare a b) eqn:E; try discriminate.
    intros _. now apply CalendarFacts.date_compare_eq.
  - intros ->. now rewrite date_compare_refl.
Qed.

Lemma date_leb_both a b :
  Calendar.date_leb a b && Calendar.date_leb b a = Calendar.date_eqb b a.
Proof.
  unfold Calendar.date_leb, Calendar.date_eqb.
  rewrite (CalendarFacts.date_compare_antisym a b).
  destruct (Calendar.date_compare a b); reflexivity.
Qed.

Lemma filter_true {A : Type} (l : list A) : filter (fun _ => true) l = l.
Proof. induction l as [|x l IH]; simpl; [reflexivity | now rewrite IH]. Qed.

Lemma filter_false {A : Type} (l : list A) : filter (fun _ => false) l = [].
Proof. induction l as [|x l IH]; simpl; [reflexivity | exact IH]. Qed.

Section FilterFacts.

Variable to_datetime : string -> M Calendar.date.
Variable today : Calendar.date.

(** X8.  "Today" keeps exactly the rows dated [today], when pandas reads
    the dates of the store. *)
Theorem filter_today transactions df start_date end_date :
  parse_dates to_datetime transactions = ret df ->
  let rows :=
    rows_of (filter_transactions_by_period to_datetime today transactions
               "Today" start_date end_date) in
  rows = filter (fun r => Calendar.date_eqb (date_col r) today) df
  /\ forall r, In r rows <-> In r df /\ date_col r = today.
Proof.
  intros P rows.
  assert (E : rows = filter (fun r => Calendar.date_eqb (date_col r) today) df).
  { unfold rows, filter_transactions_by_period.
    destruct transactions as [|t l].
    - apply parse_dates_nil in P. now subst.
    - rewrite P. reflexivity. }
  split; trivial. intros r. rewrite E, filter_In, date_eqb_eq. tauto.
Qed.

(** X9.  When pandas reads the date of every stored record, a period
    name that is none of the five the program knows filters nothing:
    every row is kept. *)
Theorem filter_unknown_period transactions df period start_date end_date :
  parse_dates to_datetime transactions = ret df ->
  period <> "Today"%string -> period <> "This Week"%string ->
  period <> "This Month"%string -> period <> "This Year"%string ->
  period <> "Custom Range"%string ->
  rows_of (filter_transactions_by_period to_datetime today transactions
             period start_date end_date) = df.
Proof.
  intros P H1 H2 H3 H4 H5. unfold filter_transactions_by_period.
  destruct transactions as [|t l].
  - apply parse_dates_nil in P. now subst.
  - rewrite P. cbn [bind ret].
    apply String.eqb_neq in H1, H2, H3, H4, H5.
    rewrite H1, H2, H3, H4, H5. reflexivity.
Qed.

(** The frame the filter returns is the empty one or a selection of the
    parsed store *)
Lemma filter_selects transactions period start_date end_date :
  filter_transactions_by_period to_datetime today transactions period
    start_date end_date = NoColumns
  \/ exists df keep,
       transactions <> []
       /\ parse_dates to_datetime transactions = ret df
       /\ filter_transactions_by_period to_datetime today transactions
            period start_date end_date = Frame (filter keep df).
Proof.
  unfold filter_transactions_by_period.
  destruct transactions as [|t l]; [now left|].
  destruct (parse_dates to_datetime (t :: l)) as [e|df] eqn:P; [now left|].
  cbn [bind ret try_except].
  assert (Hall : Frame df = Frame (filter (fun _ => true) df))
    by now rewrite filter_true.
  destruct (String.eqb period "Today").
  { right. exists df. eexists.
    split; [discriminate|]. split; reflexivity. }
  destruct (String.eqb period "This Week").
  { destruct (Calendar.sub_days today (Calendar.weekday today)) as [w|];
      [|now left].
    right. exists df. eexists.
    split; [discriminate|]. split; reflexivity. }
  destruct (String.eqb period "This Month").
  { right. exists df. eexists.
    split; [discriminate|]. split; reflexivity. }
  destruct (String.eqb period "This Year").
  { right. exists df. eexists.
    split; [discriminate|]. split; reflexivity. }
  destruct (String.eqb period "Custom Range").
  2: { right. exists df. eexists.
       split; [discriminate|]. split; [reflexivity | exact Hall]. }
  destruct (truthy_string start_date && truthy_string end_date).
  2: { right. exists df. eexists.
       split; [discriminate|]. split; [reflexivity | exact Hall]. }
  destruct (to_datetime (value start_date)) as [e|ds]; [now left|].
  destruct (to_datetime (value end_date)) as [e|de]; [now left|].
  right. exists df. eexists.
    split; [discriminate|]. split; reflexivity.
Qed.

(** X10.  Whatever the period and the bounds, the filter only selects:
    every row it returns is a stored record with its date as pandas reads
    it, the rows keep the order of the store, and there are no more of
    them than records. *)
Theorem filter_returns_stored_rows transactions period start_date end_date :
  let rows :=
    rows_of (filter_transactions_by_period to_datetime today transactions
               period start_date end_date) in
  (forall r,
      In r rows ->
      In (tx r) transactions /\ to_datetime (date (tx r)) = ret (date_col r))
  /\ (List.length rows <= List.length transactions)%nat
  /\ exists keep, map tx rows = filter keep transactions.
Proof.
  cbv zeta.
  destruct (filter_selects transactions period start_date end_date)
    as [-> | (df & keep & _ & P & ->)]; cbn [rows_of].
  - split; [intros r []|]. split; [simpl; lia|]. exists (fun _ => false).
    now rewrite filter_false.
  - pose proof (parse_dates_tx _ _ _ P) as Htx.
    assert (Hrows : Forall (fun r => to_datetime (date (tx r))
                                     = ret (date_col r)) df).
    { clear Htx. revert df P. unfold parse_dates.
      induction transactions as [|t l IH]; intros df; simpl.
      - intros H. apply ret_inj in H. subst. constructor.
      - destruct (to_datetime (date t)) as [e|d] eqn:E; simpl; [discriminate|].
        destruct (mapM _ l) as [e|df'] eqn:E'; simpl; [discriminate|].
        intros H. apply ret_inj in H. subst df.
        constructor; [exact E | now apply IH]. }
    split; [|split].
    + intros r Hr. apply filter_In in Hr. destruct Hr as [Hr _]. split.
      * rewrite <- Htx. now apply in_map.
      * rewrite Forall_forall in Hrows. now apply Hrows.
    + rewrite <- Htx, length_map. apply filter_length_le.
    + exists (fun t => match to_datetime (date t) with
                       | inr d => keep (mkRow t d)
                       | inl _ => false
                       end).
      rewrite <- Htx. clear P Htx.
      induction Hrows as [|r l Hr Hl IH]; [reflexivity|].
      cbn [filter map]. rewrite Hr. cbn [ret].
      replace (mkRow (tx r) (date_col r)) with r by (now destruct r).
      destruct (keep r); cbn [map]; now rewrite IH.
Qed.

End FilterFacts.

Section PeriodFacts.

Variable to_datetime : string -> M Calendar.date.
Variable today : Calendar.date.

Lemma parse_dates_unreadable transactions t e :
  In t transactions -> to_datetime (date t) = raise e ->
  exists e', parse_dates to_datetime transactions = raise e'.
Proof.
  intros Hin Ht.
  destruct (parse_dates_cases to_datetime transactions)
    as [(df & P) | (H & _)]; trivial.
  exfalso. pose proof (parse_dates_all _ _ _ P) as Hall.
  rewrite Forall_forall in Hall. destruct (Hall t Hin) as (d & Hd).
  rewrite Hd in Ht. discriminate Ht.
Qed.

(** X11.  One stored date that pandas cannot read blanks the dashboard:
    for every period the filter catches the exception and returns the
    frame without columns, and the summary is the "no data" message. *)
Theorem filter_unreadable_stored_date transactions period start_date end_date
  t e :
  In t transactions -> to_datetime (date t) = raise e ->
  filter_transactions_by_period to_datetime today transactions period
    start_date end_date = NoColumns
  /\ create_summary_cards to_datetime today transactions period start_date
       end_date = ret NoDataAvailable.
Proof.
  intros Hin Ht.
  assert (E : filter_transactions_by_period to_datetime today transactions
                period start_date end_date = NoColumns).
  { destruct (parse_dates_unreadable _ _ _ Hin Ht) as (e' & P).
    unfold filter_transactions_by_period.
    destruct transactions as [|t0 l]; [reflexivity|].
    rewrite P. reflexivity. }
  split; trivial. unfold create_summary_cards. rewrite E. reflexivity.
Qed.

(** X12.  The custom bounds matter for "Custom Range" only: under any
    other period name the filter returns the same frame whatever the two
    bounds are, unreadable text included. *)
Theorem named_period_ignores_bounds transactions period start_date end_date
  start_date' end_date' :
  period <> "Custom Range"%string ->
  filter_transactions_by_period to_datetime today transactions period
    start_date end_date
  = filter_transactions_by_period to_datetime today transactions period
      start_date' end_date'.
Proof.
  intros H. apply String.eqb_neq in H.
  unfold filter_transactions_by_period.
  destruct transactions as [|t l]; [reflexivity|].
  destruct (parse_dates to_datetime (t :: l)) as [e|df]; [reflexivity|].
  cbn [bind ret]. rewrite H. reflexivity.
Qed.

(** X13.  How the named periods nest, for a date [today] and a store
    pandas reads: the rows of "Today" are rows of "This Week", of "This
    Month" and of "This Year", and the rows of "This Month" are rows of
    "This Year". *)
Theorem named_periods_nest transactions df start_date end_date :
  Calendar.valid_date today ->
  parse_dates to_datetime transactions = ret df ->
  let rows period :=
    rows_of (filter_transactions_by_period to_datetime today transactions
               period start_date end_date) in
  (forall r,
      In r (rows "Today"%string) ->
      In r (rows "This Week"%string) /\ In r (rows "This Month"%string)
      /\ In r (rows "This Year"%string))
  /\ (forall r,
        In r (rows "This Month"%string) -> In r (rows "This Year"%string)).
Proof.
  intros Hv P rows.
  destruct (CalendarFacts.start_week_spec today Hv)
    as (monday & W & _ & _ & _ & Hle).
  assert (ET : rows "Today"%string
               = filter (fun r => Calendar.date_eqb (date_col r) today) df).
  { unfold rows, filter_transactions_by_period.
    destruct transactions as [|t l].
    - apply parse_dates_nil in P. now subst.
    - rewrite P. reflexivity. }
  unfold rows in *.
  rewrite ET, (filter_this_week _ _ _ _ _ _ _ P W),
    (filter_this_month _ _ _ _ _ _ P), (filter_this_year _ _ _ _ _ _ P).
  split.
  - intros r Hr. apply filter_In in Hr. destruct Hr as [Hr Hd].
    apply date_eqb_eq in Hd. rewrite !filter_In, Hd.
    repeat split; trivial.
    + now apply replace_day1_leb.
    + now apply replace_month1_day1_leb.
  - intros r Hr. apply filter_In in Hr. destruct Hr as [Hr Hd].
    apply filter_In. split; trivial.
    eapply date_leb_trans; [|exact Hd].
    apply date_leb_spec. destruct Hv as (_ & Hm & _). simpl. lia.
Qed.

Lemma filter_none {A : Type} (p : A -> bool) l :
  (forall x, In x l -> p x = false) -> filter p l = [].
Proof.
  induction l as [|x l IH]; intros H; simpl; trivial.
  rewrite (H x (or_introl eq_refl)). apply IH.
  intros y Hy. apply H. now right.
Qed.

(** X14.  A custom range whose first bound is after its second is no
    error: no row is kept and the summary is the "no data" message. *)
Theorem custom_range_inverted transactions df start_date end_date ds de :
  parse_dates to_datetime transactions = ret df ->
  truthy_string start_date = true -> truthy_string end_date = true ->
  to_datetime (value start_date) = ret ds ->
  to_datetime (value end_date) = ret de ->
  Calendar.date_leb ds de = false ->
  rows_of (filter_transactions_by_period to_datetime today transactions
             "Custom Range" start_date end_date) = []
  /\ create_summary_cards to_datetime today transactions "Custom Range"
       start_date end_date = ret NoDataAvailable.
Proof.
  intros P Ts Te Ps Pe Hinv.
  assert (E : rows_of (filter_transactions_by_period to_datetime today
                         transactions "Custom Range" start_date end_date)
              = []).
  { rewrite (filter_custom_range _ _ _ _ _ _ _ _ P Ts Te Ps Pe).
    apply filter_none. intros r _.
    destruct (Calendar.date_leb ds (date_col r)) eqn:E1; trivial.
    destruct (Calendar.date_leb (date_col r) de) eqn:E2; trivial.
    rewrite (date_leb_trans _ _ _ E1 E2) in Hinv. discriminate Hinv. }
  split; trivial. unfold create_summary_cards, empty. rewrite E. reflexivity.
Qed.

(** X15.  A custom range from [today] to [today] is the period "Today":
    the two calls return the same frame. *)
Theorem custom_range_of_today transactions start_date end_date :
  truthy_string start_date = true -> truthy_string end_date = true ->
  to_datetime (value start_date) = ret today ->
  to_datetime (value end_date) = ret today ->
  filter_transactions_by_period to_datetime today transactions
    "Custom Range" start_date end_date
  = filter_transactions_by_period to_datetime today transactions
      "Today" start_date end_date.
Proof.
  intros Ts Te Ps Pe. unfold filter_transactions_by_period.
  destruct transactions as [|t l]; [reflexivity|].
  destruct (parse_dates to_datetime (t :: l)) as [e|df]; [reflexivity|].
  cbn [bind ret try_except String.eqb Ascii.eqb Bool.eqb].
  rewrite Ts, Te. cbn [andb bind]. rewrite Ps, Pe.
  cbn [bind ret try_except].
  f_equal. apply filter_ext. intros r. apply date_leb_both.
Qed.

End PeriodFacts.

(** *** The filter statements at concrete inputs *)

Lemma filter_today_witness :
  let rows :=
    rows_of (filter_transactions_by_period Strptime.strptime
               (Calendar.mkDate 2024 3 10) ledger "Today" None None) in
  rows = filter (fun r =>
                   Calendar.date_eqb (date_col r) (Calendar.mkDate 2024 3 10))
           ledger_df
  /\ forall r,
       In r rows <-> In r ledger_df /\ date_col r = Calendar.mkDate 2024 3 10.
Proof.
  apply (filter_today Strptime.strptime (Calendar.mkDate 2024 3 10) ledger
           ledger_df None None).
  exact ledger_dates.
Defined.

Example ledger_today :
  map (fun r => id (tx r))
    (rows_of (filter_transactions_by_period Strptime.strptime
                (Calendar.mkDate 2024 3 10) ledger "Today" None None))
  = [1%nat].
Proof. vm_compute. reflexivity. Qed.

Lemma filter_unknown_period_witness :
  rows_of (filter_transactions_by_period Strptime.strptime friday ledger
             "All Time" None None) = ledger_df.
Proof.
  apply (filter_unknown_period Strptime.strptime friday ledger ledger_df
           "All Time" None None ledger_dates); discriminate.
Defined.

Lemma filter_unreadable_stored_date_witness :
  filter_transactions_by_period Strptime.strptime friday
    (ledger ++ [mkTransaction 5 "Expense" "Travel" 20%Q "bus" "12 March"
                  "2024-03-15T09:04:00"]) "This Year" None None
  = NoColumns
  /\ create_summary_cards Strptime.strptime friday
       (ledger ++ [mkTransaction 5 "Expense" "Travel" 20%Q "bus" "12 March"
                     "2024-03-15T09:04:00"]) "This Year" None None
     = ret NoDataAvailable.
Proof.
  apply (filter_unreadable_stored_date Strptime.strptime friday
           (ledger ++ [mkTransaction 5 "Expense" "Travel" 20%Q "bus"
                         "12 March" "2024-03-15T09:04:00"])
           "This Year" None None
           (mkTransaction 5 "Expense" "Travel" 20%Q "bus" "12 March"
              "2024-03-15T09:04:00") ValueError).
  - apply in_or_app. right. left. reflexivity.
  - vm_compute. reflexivity.
Defined.

Lemma named_period_ignores_bounds_witness :
  filter_transactions_by_period Strptime.strptime friday ledger "This Month"
    (Some "yesterday"%string) (Some "2024-03-01"%string)
  = filter_transactions_by_period Strptime.strptime friday ledger
      "This Month" None None.
Proof.
  apply (named_period_ignores_bounds Strptime.strptime friday ledger
           "This Month"). discriminate.
Defined.

Lemma named_periods_nest_witness :
  let rows period :=
    rows_of (filter_transactions_by_period Strptime.strptime
               (Calendar.mkDate 2024 3 10) ledger period None None) in
  (forall r,
      In r (rows "Today"%string) ->
      In r (rows "This Week"%string) /\ In r (rows "This Month"%string)
      /\ In r (rows "This Year"%string))
  /\ (forall r,
        In r (rows "This Month"%string) -> In r (rows "This Year"%string)).
Proof.
  apply (named_periods_nest Strptime.strptime (Calendar.mkDate 2024 3 10)
           ledger ledger_df None None).
  - apply CalendarFacts.valid_dateb_spec. reflexivity.
  - exact ledger_dates.
Defined.

Lemma custom_range_inverted_witness :
  rows_of (filter_transactions_by_period Strptime.strptime friday ledger
             "Custom Range" (Some "2024-03-31"%string)
             (Some "2024-03-01"%string)) = []
  /\ create_summary_cards Strptime.strptime friday ledger "Custom Range"
       (Some "2024-03-31"%string) (Some "2024-03-01"%string)
     = ret NoDataAvailable.
Proof.
  apply (custom_range_inverted Strptime.strptime friday ledger ledger_df
           (Some "2024-03-31"%string) (Some "2024-03-01"%string)
           (Calendar.mkDate 2024 3 31) (Calendar.mkDate 2024 3 1)
           ledger_dates).
  - reflexivity.
  - reflexivity.
  - vm_compute. reflexivity.
  - vm_compute. reflexivity.
  - reflexivity.
Defined.

Lemma custom_range_of_today_witness :
  filter_transactions_by_period Strptime.strptime
    (Calendar.mkDate 2024 3 10) ledger "Custom Range"
    (Some "2024-03-10"%string) (Some "2024-03-10"%string)
  = filter_transactions_by_period Strptime.strptime
      (Calendar.mkDate 2024 3 10) ledger "Today"
      (Some "2024-03-10"%string) (Some "2024-03-10"%string).
Proof.
  apply (custom_range_of_today Strptime.strptime (Calendar.mkDate 2024 3 10)
           ledger (Some "2024-03-10"%string) (Some "2024-03-10"%string)).
  - reflexivity.
  - reflexivity.
  - vm_compute. reflexivity.
  - vm_compute. reflexivity.
Defined.

(** ** More on the aggregation *)

Section Grouping.

Context {K : Type} (cmp : K -> K -> comparison) (key : row -> K).

Hypothesis cmp_eq : forall a b, cmp a b = Eq -> a = b.

Let groups (rows : list row) (acc : list (K * Q)) : list (K * Q) :=
  fold_left (fun acc r => group_add cmp (key r) (amount (tx r)) acc) rows acc.



(** The keys of the lines are the keys of the rows *)
Lemma group_add_keys k k0 v acc :
  In k (map fst (group_add cmp k0 v acc)) <-> k = k0 \/ In k (map fst acc).
Proof.
  induction acc as [|[k' v'] rest IH]; cbn [group_add].
  - simpl. intuition.
  - destruct (cmp k0 k') eqn:C.
    + apply cmp_eq in C. subst k'. simpl. intuition.
    + simpl. intuition.
    + cbn [map fst In]. rewrite IH. simpl. intuition.
Qed.

Lemma groups_keys k rows acc :
  In k (map fst (groups rows acc))
  <-> In k (map fst acc) \/ exists r, In r rows /\ key r = k.
Proof.
  unfold groups. revert acc.
  induction rows as [|r rows IH]; intros acc; cbn [fold_left].
  - split; [now left | intros [H | (r & [] & _)]; exact H].
  - rewrite IH, group_add_keys. split.
    + intros [[-> | H] | (r' & Hr' & Hk)]; auto.
      * right. exists r. simpl. auto.
      * right. exists r'. simpl. auto.
    + intros [H | (r' & [<- | Hr'] & Hk)]; auto.
      right. now exists r'.
Qed.

End Grouping.


(** The lines of a grouping by category come in increasing order of their
    category, each category once *)

Lemma string_lt_trans a b c : string_lt a b -> string_lt b c -> string_lt a c.
Proof.
  unfold string_lt. intros H1 H2.
  apply String_as_OT.cmp_lt in H1, H2. apply String_as_OT.cmp_lt.
  exact (String_as_OT.lt_trans _ _ _ H1 H2).
Qed.

Lemma string_lt_irrefl a : ~ string_lt a a.
Proof.
  unfold string_lt. intros H.
  assert (E : String.compare a a = Eq) by (now apply String_as_OT.cmp_eq).
  congruence.
Qed.

Lemma group_add_sorted k v acc :
  StronglySorted string_lt (map fst acc) ->
  StronglySorted string_lt (map fst (group_add String.compare k v acc)).
Proof.
  induction acc as [|[k' v'] rest IH]; cbn [group_add map fst]; intros Hs.
  - repeat constructor.
  - apply StronglySorted_inv in Hs. destruct Hs as [Hs Hk'].
    destruct (String.compare k k') eqn:C; cbn [map fst].
    + now constructor.
    + constructor; [now constructor|].
      constructor; [exact C|].
      eapply Forall_impl; [|exact Hk'].
      intros x Hx. now apply string_lt_trans with k'.
    + constructor; [now apply IH|].
      apply Forall_forall. intros x Hx.
      apply (group_add_keys String.compare String.compare_eq_iff) in Hx.
      destruct Hx as [-> | Hx].
      * unfold string_lt. rewrite String.compare_antisym, C. reflexivity.
      * rewrite Forall_forall in Hk'. now apply Hk'.
Qed.

Lemma groups_sorted (rows : list row) acc :
  StronglySorted string_lt (map fst acc) ->
  StronglySorted string_lt
    (map fst
       (fold_left
          (fun acc r =>
             group_add String.compare (category (tx r)) (amount (tx r)) acc)
          rows acc)).
Proof.
  revert acc. induction rows as [|r rows IH]; intros acc Hs; cbn [fold_left].
  - exact Hs.
  - apply IH. now apply group_add_sorted.
Qed.

Lemma sorted_single_line (l : list (string * Q)) k v :
  StronglySorted string_lt (map fst l) -> In (k, v) l ->
  filter (fun p => String.eqb (fst p) k) l = [(k, v)].
Proof.
  induction l as [|[k0 v0] l IH]; cbn [map fst]; intros Hs Hin; [easy|].
  apply StronglySorted_inv in Hs. destruct Hs as [Hs Hk0].
  rewrite Forall_forall in Hk0. cbn [filter fst].
  destruct Hin as [[= -> ->] | Hin].
  - rewrite String.eqb_refl. f_equal.
    apply filter_none. intros [k1 v1] H1. cbn [fst].
    apply String.eqb_neq. intros ->.
    apply (string_lt_irrefl k). apply Hk0.
    change k with (fst (k, v1)). now apply in_map.
  - assert (Hlt : string_lt k0 k).
    { apply Hk0. change k with (fst (k, v)). now apply in_map. }
    replace (String.eqb k0 k) with false.
    + now apply IH.
    + symmetry. apply String.eqb_neq. intros ->.
      exact (string_lt_irrefl _ Hlt).
Qed.

Lemma groupby_category_lines sel :
  category_lines sel
    (fold_left
       (fun acc r =>
          group_add String.compare (category (tx r)) (amount (tx r)) acc)
       sel []).
Proof.
  split; [|split].
  - apply groups_sorted. constructor.
  - intros k.
    rewrite (groups_keys String.compare (fun r => category (tx r))
               String.compare_eq_iff k sel []).
    simpl. intuition.
  - intros k v Hin.
    pose proof (groupby_category k sel []) as H.
    rewrite (sorted_single_line _ k v (groups_sorted sel [] (SSorted_nil _))
               Hin) in H.
    cbn [map snd filter] in H. rewrite Qsum_cons in H.
    change (Qsum []) with 0%Q in H.
    rewrite Qplus_0_r, Qplus_0_l in H. exact H.
Qed.

Section PieCharts.

Variable to_datetime : string -> M Calendar.date.
Variable today : Calendar.date.
Variable transactions : store.
Variable period : string.
Variables start_date end_date : option string.

Lemma pie_chart_core ty text title0 title rows :
  match filter (fun r => String.eqb (type (tx r)) ty) rows with
  | [] =>
      (expense_df <- select_type (Frame rows) ty ;;
       if empty expense_df then ret (Placeholder text title0)
       else
         category_totals <-
           groupby_sum "category" String.compare (fun r => category (tx r))
             expense_df ;;
         ret (Pie title category_totals))
      = ret (Placeholder text title0)
  | _ :: _ =>
      exists totals,
        (expense_df <- select_type (Frame rows) ty ;;
         if empty expense_df then ret (Placeholder text title0)
         else
           category_totals <-
             groupby_sum "category" String.compare (fun r => category (tx r))
               expense_df ;;
           ret (Pie title category_totals))
        = ret (Pie title totals)
        /\ category_lines
             (filter (fun r => String.eqb (type (tx r)) ty) rows) totals
  end.
Proof.
  cbn [select_type bind ret].
  destruct (filter (fun r => String.eqb (type (tx r)) ty) rows)
    as [|r sel] eqn:E.
  - reflexivity.
  - eexists. split; [reflexivity|]. apply groupby_category_lines.
Qed.


End PieCharts.

Section Views.

Variable to_datetime : string -> M Calendar.date.
Variable today : Calendar.date.
Variable transactions : store.
Variable period : string.
Variables start_date end_date : option string.

Let df : dataframe :=
  filter_transactions_by_period to_datetime today transactions period
    start_date end_date.

Lemma summary_of_frame r rows :
  df = Frame (r :: rows) ->
  create_summary_cards to_datetime today transactions period start_date
    end_date
  = ret (SummaryCard period
           (mkSummary
              (Qsum (map (fun r => amount (tx r))
                       (filter (fun r => String.eqb (type (tx r)) "Income")
                          (r :: rows))))
              (Qsum (map (fun r => amount (tx r))
                       (filter (fun r => String.eqb (type (tx r)) "Expense")
                          (r :: rows))))
              (Qsum (map (fun r => amount (tx r))
                       (filter (fun r => String.eqb (type (tx r)) "Income")
                          (r :: rows)))
               - Qsum (map (fun r => amount (tx r))
                         (filter (fun r => String.eqb (type (tx r)) "Expense")
                            (r :: rows))))
              (List.length (r :: rows)))).
Proof.
  unfold create_summary_cards. fold df. intros ->. reflexivity.
Qed.

(** X17.  [update_charts] fails exactly when the filter returns the frame
    without columns (an empty store, or an exception caught inside the
    filter), and then with [KeyError] on the column [type]; on any frame
    that has its columns, rows or not, the five views are returned. *)
Theorem update_charts_outcome :
  match df with
  | NoColumns =>
      update_charts to_datetime today transactions period start_date end_date
      = raise (KeyError "type")
  | Frame _ =>
      exists summary_cards expense_pie income_pie trend_chart bar_chart,
        update_charts to_datetime today transactions period start_date
          end_date
        = ret (summary_cards, expense_pie, income_pie, trend_chart, bar_chart)
        /\ create_summary_cards to_datetime today transactions period
             start_date end_date = ret summary_cards
        /\ create_expense_pie_chart to_datetime today transactions period
             start_date end_date = ret expense_pie
        /\ create_income_pie_chart to_datetime today transactions period
             start_date end_date = ret income_pie
        /\ create_trend_chart to_datetime today transactions period start_date
             end_date = ret trend_chart
        /\ create_bar_chart to_datetime today transactions period start_date
             end_date = ret bar_chart
  end.
Proof.
  destruct df as [|rows] eqn:E.
  - now apply no_columns_pie_charts_raise.
  - assert (Hs : exists c, create_summary_cards to_datetime today transactions
                             period start_date end_date = ret c).
    { destruct rows as [|r rows].
      - exists NoDataAvailable. now apply empty_selection_no_data.
      - eexists. exact (summary_of_frame r rows E). }
    assert (He : exists f, create_expense_pie_chart to_datetime today
                             transactions period start_date end_date = ret f).
    { unfold create_expense_pie_chart. fold df. rewrite E.
      pose proof (pie_chart_core "Expense" "No expense data available"
                    "Expense Distribution by Category"
                    (titled "Expense Distribution by Category" period) rows)
        as H.
      destruct (filter _ rows); [eexists; exact H|].
      destruct H as (t & H & _). eexists. exact H. }
    assert (Hi : exists f, create_income_pie_chart to_datetime today
                             transactions period start_date end_date = ret f).
    { unfold create_income_pie_chart. fold df. rewrite E.
      pose proof (pie_chart_core "Income" "No income data available"
                    "Income Distribution by Category"
                    (titled "Income Distribution by Category" period) rows)
        as H.
      destruct (filter _ rows); [eexists; exact H|].
      destruct H as (t & H & _). eexists. exact H. }
    assert (Ht : exists f, create_trend_chart to_datetime today transactions
                             period start_date end_date = ret f).
    { unfold create_trend_chart. fold df. rewrite E.
      destruct rows; eexists; cbn [empty rows_of groupby_sum bind ret];
        reflexivity. }
    assert (Hb : exists f, create_bar_chart to_datetime today transactions
                             period start_date end_date = ret f).
    { unfold create_bar_chart. fold df. rewrite E.
      destruct rows; eexists; cbn [empty rows_of groupby_sum bind ret];
        reflexivity. }
    destruct Hs as (c & Hs), He as (e & He), Hi as (i & Hi), Ht as (t & Ht),
      Hb as (b & Hb).
    exists c, e, i, t, b. unfold update_charts.
    rewrite Hs, He, Hi, Ht, Hb. repeat split.
Qed.

(** X18.  When the store has records, pandas reads them, and no row
    matches the period, nothing fails: the summary is the "no data"
    message and each of the four charts is its placeholder. *)
Theorem update_charts_empty_selection :
  df = Frame [] ->
  update_charts to_datetime today transactions period start_date end_date
  = ret (NoDataAvailable,
         Placeholder "No expense data available"
           "Expense Distribution by Category",
         Placeholder "No income data available"
           "Income Distribution by Category",
         Placeholder "No data available for trend analysis"
           "Income vs Expenses Trend",
         Placeholder "No data available" "Category Comparison").
Proof.
  intros E.
  destruct (empty_selection_no_data to_datetime today transactions period
              start_date end_date E) as (Hs & He & Hi & Ht & Hb).
  unfold update_charts. rewrite Hs, He, Hi, Ht, Hb. reflexivity.
Qed.

End Views.

Lemma update_charts_empty_selection_witness :
  update_charts Strptime.strptime friday ledger "Today" None None
  = ret (NoDataAvailable,
         Placeholder "No expense data available"
           "Expense Distribution by Category",
         Placeholder "No income data available"
           "Income Distribution by Category",
         Placeholder "No data available for trend analysis"
           "Income vs Expenses Trend",
         Placeholder "No data available" "Category Comparison").
Proof.
  apply (update_charts_empty_selection Strptime.strptime friday ledger
           "Today" None None).
  vm_compute. reflexivity.
Defined.


(** ** Tables grouped by any key *)

Section SortedGroups.

Context {K : Type} (cmp : K -> K -> comparison) (key : row -> K).

Hypothesis cmp_eq : forall a b, cmp a b = Eq -> a = b.
Hypothesis cmp_refl : forall a, cmp a a = Eq.
Hypothesis cmp_antisym : forall a b, cmp b a = CompOpp (cmp a b).
Hypothesis cmp_trans :
  forall a b c, cmp a b = Lt -> cmp b c = Lt -> cmp a c = Lt.







End SortedGroups.

(** The orders the charts group by *)

















Section BarAndTrend.

Variable to_datetime : string -> M Calendar.date.
Variable today : Calendar.date.
Variable transactions : store.
Variable period : string.
Variables start_date end_date : option string.

Let df : dataframe :=
  filter_transactions_by_period to_datetime today transactions period
    start_date end_date.



End BarAndTrend.




Example ledger_views :
  update_charts Strptime.strptime friday ledger "This Month" None None
  = ret (SummaryCard "This Month" (mkSummary 1000%Q 350%Q 650%Q 3),
         Pie "Expense Distribution by Category (This Month)"
           [("Food & Dining"%string, 50%Q); ("Travel"%string, 300%Q)],
         Pie "Income Distribution by Category (This Month)"
           [("Salary"%string, 1000%Q)],
         Trend "Income vs Expenses Trend (This Month)"
           [("Income"%string, [(Calendar.mkDate 2024 3 1, 1000%Q)]);
            ("Expense"%string,
             [(Calendar.mkDate 2024 3 10, 50%Q);
              (Calendar.mkDate 2024 4 20, 300%Q)])],
         Bar "Category Comparison (This Month)"
           [("Food & Dining"%string, "Expense"%string, 50%Q);
            ("Salary"%string, "Income"%string, 1000%Q);
            ("Travel"%string, "Expense"%string, 300%Q)]).
Proof. vm_compute. reflexivity. Qed.

(** ** Adding a record, then reading the table *)

Section AddThenRead.

Variable to_datetime : string -> M Calendar.date.




End AddThenRead.


(** * The statements on stores that hold records *)

(** ** [add_transaction] on a store of three records *)


(** The fourth record gets the identifier 4, one more than the largest
    of the three *)
Example fourth_record :
  max_id same_instant = 3%nat
  /\ map id (snd (add_transaction Strptime.strptime "2024-03-15T10:05:00"
                    same_instant "Expense" (Some "Food & Dining"%string)
                    (Some 50%Q) "lunch" "2024-03-10"))
     = [1; 2; 3; 4]%nat.
Proof. vm_compute. split; reflexivity. Qed.

Lemma add_transaction_invalid_unchanged_witness :
  (exists st,
      add_transaction Strptime.strptime "2024-03-15T10:05:00" same_instant
        "Expense" (Some "Food & Dining"%string) (Some (-5 # 1)%Q) "lunch"
        "2024-03-10"
      = (st, get_recent_transactions Strptime.strptime same_instant,
         same_instant)
      /\ (st = InvalidAmount \/ st = MissingCategory \/ st = InvalidDate))
  /\ (exists st,
        add_transaction Strptime.strptime "2024-03-15T10:05:00" same_instant
          "Expense" (Some ""%string) (Some 5%Q) "lunch" "2024-03-10"
        = (st, get_recent_transactions Strptime.strptime same_instant,
           same_instant)
        /\ (st = InvalidAmount \/ st = MissingCategory \/ st = InvalidDate))
  /\ (exists st,
        add_transaction Strptime.strptime "2024-03-15T10:05:00" same_instant
          "Expense" (Some "Food & Dining"%string) (Some 5%Q) "lunch"
          "10/03/2024"
        = (st, get_recent_transactions Strptime.strptime same_instant,
           same_instant)
        /\ (st = InvalidAmount \/ st = MissingCategory \/ st = InvalidDate)).
Proof.
  split; [|split].
  - apply (add_transaction_invalid_unchanged Strptime.strptime
             "2024-03-15T10:05:00" same_instant "Expense"
             (Some "Food & Dining"%string) (Some (-5 # 1)%Q) "lunch"
             "2024-03-10").
    left. simpl. unfold Qle. simpl. lia.
  - apply (add_transaction_invalid_unchanged Strptime.strptime
             "2024-03-15T10:05:00" same_instant "Expense" (Some ""%string)
             (Some 5%Q) "lunch" "2024-03-10").
    right. left. right. reflexivity.
  - apply (add_transaction_invalid_unchanged Strptime.strptime
             "2024-03-15T10:05:00" same_instant "Expense"
             (Some "Food & Dining"%string) (Some 5%Q) "lunch" "10/03/2024").
    right. right. intros (d & H). vm_compute in H. discriminate H.
Defined.

(** Dates written with the digits of another script: [strptime] reads
    the year and the second digit of a day from 10 to 29 in any script,
    and the other digits in ASCII only *)
Example strptime_other_scripts :
  Strptime.strptime "２０２４-01-01" = ret (Calendar.mkDate 2024 1 1)
  /\ Strptime.strptime "2024-01-1０" = ret (Calendar.mkDate 2024 1 10)
  /\ Strptime.strptime "2024-01-0１" = raise ValueError
  /\ Strptime.strptime "2024-0１-01" = raise ValueError
  /\ Strptime.strptime "2024-01-3１" = raise ValueError
  /\ Strptime.strptime "2024-01- 1" = ret (Calendar.mkDate 2024 1 1).
Proof. vm_compute. repeat split. Qed.

(** ** The filter on a store with a date pandas does not read *)

Lemma spaced_reachable : reachable to_datetime_strict spaced.
Proof.
  pose proof (reachable_add to_datetime_strict "2024-03-15T08:00:00" []
                "Expense" (Some "Travel"%string) (Some 40%Q) "taxi"
                "2024-01- 1" (reachable_init _)) as H1.
  match type of H1 with
  | reachable _ (snd ?r) =>
      replace r with
        (Added "Expense" 40%Q,
         get_recent_transactions to_datetime_strict (firstn 1 spaced),
         firstn 1 spaced) in H1 by (vm_compute; reflexivity)
  end.
  cbn [snd] in H1.
  pose proof (reachable_add to_datetime_strict "2024-03-15T08:01:00" _
                "Income" (Some "Salary"%string) (Some 1000%Q) "pay"
                "2024-03-14" H1) as H2.
  match type of H2 with
  | reachable _ (snd ?r) =>
      replace r with
        (Added "Income" 1000%Q,
         get_recent_transactions to_datetime_strict spaced,
         spaced) in H2 by (vm_compute; reflexivity)
  end.
  exact H2.
Qed.

(** C2 as the specification words it fails: in a store the program
    reaches, one record carries the date text "2024-01- 1", which
    [strptime] accepts and pandas does not read.  The other record is
    dated 14 March 2024, on or after the Monday of the week of
    15 March, the first of March and the first of January; yet each of
    the three filters returns the frame without rows. *)
Lemma unreadable_date_empties_named_periods :
  reachable to_datetime_strict spaced
  /\ Strptime.strptime "2024-01- 1" = ret (Calendar.mkDate 2024 1 1)
  /\ to_datetime_strict "2024-01- 1" = raise ValueError
  /\ In (mkTransaction 2 "Income" "Salary" 1000%Q "pay" "2024-03-14"
           "2024-03-15T08:01:00") spaced
  /\ to_datetime_strict "2024-03-14" = ret (Calendar.mkDate 2024 3 14)
  /\ Calendar.sub_days friday (Calendar.weekday friday)
     = Some (Calendar.mkDate 2024 3 11)
  /\ Calendar.date_leb (Calendar.mkDate 2024 3 11) (Calendar.mkDate 2024 3 14)
     = true
  /\ Calendar.date_leb (Calendar.replace_day1 friday)
       (Calendar.mkDate 2024 3 14) = true
  /\ Calendar.date_leb (Calendar.replace_month1_day1 friday)
       (Calendar.mkDate 2024 3 14) = true
  /\ rows_of (filter_transactions_by_period to_datetime_strict friday spaced
                "This Week" None None) = []
  /\ rows_of (filter_transactions_by_period to_datetime_strict friday spaced
                "This Month" None None) = []
  /\ rows_of (filter_transactions_by_period to_datetime_strict friday spaced
                "This Year" None None) = [].
Proof.
  split; [exact spaced_reachable|].
  split; [vm_compute; reflexivity|].
  split; [vm_compute; reflexivity|].
  split; [right; left; reflexivity|].
  split; [vm_compute; reflexivity|].
  split; [vm_compute; reflexivity|].
  split; [vm_compute; reflexivity|].
  split; [vm_compute; reflexivity|].
  split; [vm_compute; reflexivity|].
  split; [vm_compute; reflexivity|].
  split; vm_compute; reflexivity.
Qed.

(** C7 as the specification words it fails, on the same store: with both
    bounds supplied and read, the record dated 14 March 2024 lies between
    1 and 31 March and is not returned; with the second bound missing,
    no record is returned instead of both. *)
Lemma unreadable_date_empties_custom_range :
  reachable to_datetime_strict spaced
  /\ to_datetime_strict "2024-03-01" = ret (Calendar.mkDate 2024 3 1)
  /\ to_datetime_strict "2024-03-31" = ret (Calendar.mkDate 2024 3 31)
  /\ to_datetime_strict "2024-03-14" = ret (Calendar.mkDate 2024 3 14)
  /\ Calendar.date_leb (Calendar.mkDate 2024 3 1) (Calendar.mkDate 2024 3 14)
     && Calendar.date_leb (Calendar.mkDate 2024 3 14)
          (Calendar.mkDate 2024 3 31) = true
  /\ rows_of (filter_transactions_by_period to_datetime_strict friday spaced
                "Custom Range" (Some "2024-03-01"%string)
                (Some "2024-03-31"%string)) = []
  /\ List.length spaced = 2%nat
  /\ rows_of (filter_transactions_by_period to_datetime_strict friday spaced
                "Custom Range" (Some "2024-03-01"%string) None) = [].
Proof.
  split; [exact spaced_reachable|].
  split; [vm_compute; reflexivity|].
  split; [vm_compute; reflexivity|].
  split; [vm_compute; reflexivity|].
  split; [vm_compute; reflexivity|].
  split; [vm_compute; reflexivity|].
  split; [reflexivity|].
  vm_compute; reflexivity.
Qed.

(** ** The two sums in binary64 *)

